(** * Recording session and test-code generation of the Playwright MCP server

    A shallow embedding of the recording state, the action recorder, the
    three code generators and the three recording tool handlers of
    [src/index.ts], followed by the properties of the specification that
    concern them.

    Conventions of the embedding.
    - A JavaScript string is a [string]; each character stands for one
      UTF-16 code unit (the model covers the code units below 256).
    - An optional property of a JavaScript object is an [option]; reading an
      absent property inside a template literal prints [undefined].
    - The module-level variables [recordedActions], [isRecording] and
      [recordingName] are the fields of an explicit [Session] value that is
      passed to and returned by every operation.
    - [Date.now()] is an input of [recordAction].
    - Code that can throw returns a [Result]; the [try]/[catch] of the
      request handler turns a thrown message into an error response. *)

From Stdlib Require Import String Ascii List ZArith Lia DecimalString.
From stdpp Require Import base option list strings gmap.

Open Scope string_scope.
Open Scope list_scope.

(** ** Strings *)

(** The line feed written [\n] in the source. *)
Definition nl : string := String "010"%char "".

(** [`${x}`] for an optional string property [x]. *)
Definition tpl (x : option string) : string :=
  match x with
  | Some s => s
  | None => "undefined"
  end.

(** [a || b] on strings: the empty string is falsy. *)
Definition orElse (a b : string) : string :=
  match a with
  | EmptyString => b
  | _ => a
  end.

(** The character class [a-zA-Z0-9]. *)
Definition isAlnum (c : ascii) : bool :=
  let n := nat_of_ascii c in
  ((97 <=? n)%nat && (n <=? 122)%nat) ||
  ((65 <=? n)%nat && (n <=? 90)%nat) ||
  ((48 <=? n)%nat && (n <=? 57)%nat).

(** [s.replace(/[^a-zA-Z0-9]/g, "_")]. *)
Fixpoint replaceNonAlnum (s : string) : string :=
  match s with
  | EmptyString => EmptyString
  | String c rest =>
      String (if isAlnum c then c else "_"%char) (replaceNonAlnum rest)
  end.

(** [`${n}`] for a non-negative integer such as an array length. *)
Definition showNat (n : nat) : string := NilZero.string_of_uint (Nat.to_uint n).

(** Concatenation of a list of strings, in order. *)
Definition joinAll (l : list string) : string := foldr String.append "" l.

(** [haystack.includes(needle)]. *)
Fixpoint includes (haystack needle : string) : bool :=
  String.prefix needle haystack ||
  match haystack with
  | EmptyString => false
  | String _ rest => includes rest needle
  end.

(** ** The action model *)

(** [interface RecordedAction]. *)
Record RecordedAction := mkRecordedAction {
  type : string;
  selector : option string;
  value : option string;
  url : option string;
  script : option string;
  key : option string;
  attribute : option string;
  timestamp : Z;
  description : option string
}.

(** [Omit<RecordedAction, "timestamp">], the argument of [recordAction]. *)
Record ActionInput := mkActionInput {
  in_type : string;
  in_selector : option string;
  in_value : option string;
  in_url : option string;
  in_script : option string;
  in_key : option string;
  in_attribute : option string;
  in_description : option string
}.

(** [{ ...action, timestamp: now }]. *)
Definition withTimestamp (action : ActionInput) (now : Z) : RecordedAction :=
  {| type := in_type action;
     selector := in_selector action;
     value := in_value action;
     url := in_url action;
     script := in_script action;
     key := in_key action;
     attribute := in_attribute action;
     timestamp := now;
     description := in_description action |}.

(** The object literals that the automation handlers pass to
    [recordAction], one per recorded kind. *)
Module Recorded.

Definition navigate (u : string) : ActionInput :=
  {| in_type := "navigate"; in_selector := None; in_value := None;
     in_url := Some u; in_script := None; in_key := None;
     in_attribute := None; in_description := Some ("Navigate to " +:+ u) |}.

Definition screenshot (screenshotName : string) : ActionInput :=
  {| in_type := "screenshot"; in_selector := None;
     in_value := Some screenshotName; in_url := None; in_script := None;
     in_key := None; in_attribute := None;
     in_description := Some "Take screenshot" |}.

Definition onSelector (ty label sel : string) : ActionInput :=
  {| in_type := ty; in_selector := Some sel; in_value := None;
     in_url := None; in_script := None; in_key := None;
     in_attribute := None; in_description := Some (label +:+ sel) |}.

Definition onSelectorValue (ty label sel v : string) : ActionInput :=
  {| in_type := ty; in_selector := Some sel; in_value := Some v;
     in_url := None; in_script := None; in_key := None;
     in_attribute := None; in_description := Some (label +:+ sel) |}.

Definition click (sel : string) := onSelector "click" "Click " sel.
Definition fill (sel v : string) := onSelectorValue "fill" "Fill " sel v.
Definition typeText (sel text : string) :=
  onSelectorValue "type" "Type into " sel text.
Definition hover (sel : string) := onSelector "hover" "Hover " sel.
Definition select (sel v : string) :=
  onSelectorValue "select" "Select option in " sel v.
Definition waitForSelector (sel : string) :=
  onSelector "waitForSelector" "Wait for " sel.
Definition check (sel : string) := onSelector "check" "Check " sel.
Definition uncheck (sel : string) := onSelector "uncheck" "Uncheck " sel.

Definition press (k : string) : ActionInput :=
  {| in_type := "press"; in_selector := None; in_value := None;
     in_url := None; in_script := None; in_key := Some k;
     in_attribute := None; in_description := Some ("Press " +:+ k) |}.

End Recorded.

(** ** The recording session *)

Record Session := mkSession {
  recordedActions : list RecordedAction;
  isRecording : bool;
  recordingName : string
}.

(** The state at program start. *)
Definition initialSession : Session :=
  {| recordedActions := []; isRecording := false; recordingName := "" |}.

(** [function recordAction(action)]; [now] is the value of [Date.now()]. *)
Definition recordAction (now : Z) (action : ActionInput) (s : Session) : Session :=
  if isRecording s then
    {| recordedActions := recordedActions s ++ [withTimestamp action now];
       isRecording := isRecording s;
       recordingName := recordingName s |}
  else s.

(** ** The code generators *)

Inductive Framework := playwright | puppeteer | selenium.
Inductive Language := typescript | javascript | python.

#[global] Instance Framework_eq_dec : EqDecision Framework.
Proof. solve_decision. Defined.
#[global] Instance Language_eq_dec : EqDecision Language.
Proof. solve_decision. Defined.

(** [`${framework}`] and [`${language}`]: the enum's own spelling. *)
Definition showFramework (f : Framework) : string :=
  match f with
  | playwright => "playwright"
  | puppeteer => "puppeteer"
  | selenium => "selenium"
  end.

Definition showLanguage (l : Language) : string :=
  match l with
  | typescript => "typescript"
  | javascript => "javascript"
  | python => "python"
  end.

(** The text that one [case] of a [switch (action.type)] appends. *)
Definition Template : Type := RecordedAction -> string.

(** A [switch (action.type)] whose groups all end in [break]: the cases in
    source order, a group with several labels listed once per label. *)
Definition Cases : Type := list (string * Template).

(** The case that a [switch] selects: the first whose label is strictly
    equal to the scrutinee; none when no label matches (there is no
    [default]). *)
Fixpoint selectCase (cases : Cases) (scrutinee : string) : option Template :=
  match cases with
  | [] => None
  | (label, body) :: rest =>
      if String.eqb scrutinee label then Some body
      else selectCase rest scrutinee
  end.

(** One iteration of [for (const action of actions) { switch ... }]:
    [testCode += body] for the selected case, nothing otherwise. *)
Definition switchStep (cases : Cases) (testCode : string) (action : RecordedAction) : string :=
  match selectCase cases (type action) with
  | Some body => testCode +:+ body action
  | None => testCode
  end.

(** The whole [for] loop over [actions], starting from [testCode]. *)
Definition forEachAction (cases : Cases) (testCode : string) (actions : list RecordedAction) : string :=
  fold_left (switchStep cases) actions testCode.

(** The [switch] of [generatePlaywrightTest]. *)
Definition playwrightCases : Cases :=
  [ ("navigate", fun action =>
       "  await page.goto('" +:+ tpl (url action) +:+ "');" +:+ nl);
    ("click", fun action =>
       "  await page.click('" +:+ tpl (selector action) +:+ "');" +:+ nl);
    ("fill", fun action =>
       "  await page.fill('" +:+ tpl (selector action) +:+ "', '"
         +:+ tpl (value action) +:+ "');" +:+ nl);
    ("type", fun action =>
       "  await page.type('" +:+ tpl (selector action) +:+ "', '"
         +:+ tpl (value action) +:+ "');" +:+ nl);
    ("press", fun action =>
       "  await page.keyboard.press('" +:+ tpl (key action) +:+ "');" +:+ nl);
    ("select", fun action =>
       "  await page.selectOption('" +:+ tpl (selector action) +:+ "', '"
         +:+ tpl (value action) +:+ "');" +:+ nl);
    ("hover", fun action =>
       "  await page.hover('" +:+ tpl (selector action) +:+ "');" +:+ nl);
    ("check", fun action =>
       "  await page.check('" +:+ tpl (selector action) +:+ "');" +:+ nl);
    ("uncheck", fun action =>
       "  await page.uncheck('" +:+ tpl (selector action) +:+ "');" +:+ nl);
    ("waitForSelector", fun action =>
       "  await page.waitForSelector('" +:+ tpl (selector action) +:+ "');" +:+ nl);
    ("screenshot", fun action =>
       "  await page.screenshot({ path: '" +:+ tpl (value action) +:+ "' });" +:+ nl)
  ].

(** The [imports] of [generatePlaywrightTest]. *)
Definition playwrightImports (language : Language) : string :=
  if decide (language = typescript)
  then "import { test, expect } from '@playwright/test';" +:+ nl +:+ nl
  else "const { test, expect } = require('@playwright/test');" +:+ nl +:+ nl.

(** [function generatePlaywrightTest(actions, language)]; it reads the
    global [recordingName], here the first argument. *)
Definition generatePlaywrightTest (recordingName : string) (actions : list RecordedAction) (language : Language) : string :=
  let testCode := playwrightImports language in
  let testCode := testCode +:+
    ("test('" +:+ orElse recordingName "recorded test" +:+ "', async ({ page }) => {" +:+ nl) in
  let testCode := forEachAction playwrightCases testCode actions in
  let testCode := testCode +:+ ("});" +:+ nl) in
  testCode.

(** The [switch] of [generatePuppeteerTest]; [fill] and [type] share a body. *)
Definition puppeteerTypeBody : Template := fun action =>
  "  await page.type('" +:+ tpl (selector action) +:+ "', '"
    +:+ tpl (value action) +:+ "');" +:+ nl.

Definition puppeteerCases : Cases :=
  [ ("navigate", fun action =>
       "  await page.goto('" +:+ tpl (url action) +:+ "');" +:+ nl);
    ("click", fun action =>
       "  await page.click('" +:+ tpl (selector action) +:+ "');" +:+ nl);
    ("fill", puppeteerTypeBody);
    ("type", puppeteerTypeBody);
    ("press", fun action =>
       "  await page.keyboard.press('" +:+ tpl (key action) +:+ "');" +:+ nl);
    ("select", fun action =>
       "  await page.select('" +:+ tpl (selector action) +:+ "', '"
         +:+ tpl (value action) +:+ "');" +:+ nl);
    ("hover", fun action =>
       "  await page.hover('" +:+ tpl (selector action) +:+ "');" +:+ nl);
    ("waitForSelector", fun action =>
       "  await page.waitForSelector('" +:+ tpl (selector action) +:+ "');" +:+ nl);
    ("screenshot", fun action =>
       "  await page.screenshot({ path: '" +:+ tpl (value action) +:+ "' });" +:+ nl)
  ].

Definition puppeteerImports (language : Language) : string :=
  if decide (language = typescript)
  then "import puppeteer from 'puppeteer';" +:+ nl +:+ nl
  else "const puppeteer = require('puppeteer');" +:+ nl +:+ nl.

(** [function generatePuppeteerTest(actions, language)]. *)
Definition generatePuppeteerTest (actions : list RecordedAction) (language : Language) : string :=
  let testCode := puppeteerImports language in
  let testCode := testCode +:+ ("(async () => {" +:+ nl) in
  let testCode := testCode +:+ ("  const browser = await puppeteer.launch();" +:+ nl) in
  let testCode := testCode +:+ ("  const page = await browser.newPage();" +:+ nl +:+ nl) in
  let testCode := forEachAction puppeteerCases testCode actions in
  let testCode := testCode +:+ (nl +:+ "  await browser.close();" +:+ nl) in
  let testCode := testCode +:+ ("})();" +:+ nl) in
  testCode.

(** The [switch] of the Playwright branch of [generatePythonTest]. *)
Definition pythonPlaywrightCases : Cases :=
  [ ("navigate", fun action =>
       "        page.goto('" +:+ tpl (url action) +:+ "')" +:+ nl);
    ("click", fun action =>
       "        page.click('" +:+ tpl (selector action) +:+ "')" +:+ nl);
    ("fill", fun action =>
       "        page.fill('" +:+ tpl (selector action) +:+ "', '"
         +:+ tpl (value action) +:+ "')" +:+ nl);
    ("type", fun action =>
       "        page.type('" +:+ tpl (selector action) +:+ "', '"
         +:+ tpl (value action) +:+ "')" +:+ nl);
    ("press", fun action =>
       "        page.keyboard.press('" +:+ tpl (key action) +:+ "')" +:+ nl);
    ("select", fun action =>
       "        page.select_option('" +:+ tpl (selector action) +:+ "', '"
         +:+ tpl (value action) +:+ "')" +:+ nl);
    ("hover", fun action =>
       "        page.hover('" +:+ tpl (selector action) +:+ "')" +:+ nl);
    ("waitForSelector", fun action =>
       "        page.wait_for_selector('" +:+ tpl (selector action) +:+ "')" +:+ nl);
    ("screenshot", fun action =>
       "        page.screenshot(path='" +:+ tpl (value action) +:+ "')" +:+ nl)
  ].

(** The [switch] of the Selenium branch of [generatePythonTest]; [fill] and
    [type] share a body. *)
Definition seleniumSendKeysBody : Template := fun action =>
  "    driver.find_element(By.CSS_SELECTOR, '" +:+ tpl (selector action)
    +:+ "').send_keys('" +:+ tpl (value action) +:+ "')" +:+ nl.

Definition pythonSeleniumCases : Cases :=
  [ ("navigate", fun action =>
       "    driver.get('" +:+ tpl (url action) +:+ "')" +:+ nl);
    ("click", fun action =>
       "    driver.find_element(By.CSS_SELECTOR, '" +:+ tpl (selector action)
         +:+ "').click()" +:+ nl);
    ("fill", seleniumSendKeysBody);
    ("type", seleniumSendKeysBody);
    ("waitForSelector", fun action =>
       "    WebDriverWait(driver, 10).until(EC.presence_of_element_located((By.CSS_SELECTOR, '"
         +:+ tpl (selector action) +:+ "')))" +:+ nl);
    ("screenshot", fun action =>
       "    driver.save_screenshot('" +:+ tpl (value action) +:+ "')" +:+ nl)
  ].

(** [`def test_${recordingName.replace(/[^a-zA-Z0-9]/g, "_") || "recorded"}():\n`]. *)
Definition pythonDef (recordingName : string) : string :=
  "def test_" +:+ orElse (replaceNonAlnum recordingName) "recorded" +:+ "():" +:+ nl.

(** [function generatePythonTest(actions, framework)].  The parameter is
    typed ["playwright" | "selenium"] but the caller passes its framework
    through a cast, so at run time it is any [Framework]; the function only
    tests [framework === "playwright"]. *)
Definition generatePythonTest (recordingName : string) (actions : list RecordedAction) (framework : Framework) : string :=
  if decide (framework = playwright) then
    let testCode := "from playwright.sync_api import sync_playwright" +:+ nl +:+ nl in
    let testCode := testCode +:+ pythonDef recordingName in
    let testCode := testCode +:+ ("    with sync_playwright() as p:" +:+ nl) in
    let testCode := testCode +:+ ("        browser = p.chromium.launch()" +:+ nl) in
    let testCode := testCode +:+ ("        page = browser.new_page()" +:+ nl +:+ nl) in
    let testCode := forEachAction pythonPlaywrightCases testCode actions in
    let testCode := testCode +:+ (nl +:+ "        browser.close()" +:+ nl) in
    testCode
  else
    let testCode := "from selenium import webdriver" +:+ nl in
    let testCode := testCode +:+ ("from selenium.webdriver.common.by import By" +:+ nl) in
    let testCode := testCode +:+ ("from selenium.webdriver.support.ui import WebDriverWait" +:+ nl) in
    let testCode := testCode +:+ ("from selenium.webdriver.support import expected_conditions as EC" +:+ nl +:+ nl) in
    let testCode := testCode +:+ pythonDef recordingName in
    let testCode := testCode +:+ ("    driver = webdriver.Chrome()" +:+ nl +:+ nl) in
    let testCode := forEachAction pythonSeleniumCases testCode actions in
    let testCode := testCode +:+ (nl +:+ "    driver.quit()" +:+ nl) in
    testCode.

(** The dispatch of the [playwright_generate_test] handler:
    [let testCode = ""; if (language === "python") ... else if (framework
    === "playwright") ... else if (framework === "puppeteer") ...]. *)
Definition testCodeFor (recordingName : string) (actions : list RecordedAction) (framework : Framework) (language : Language) : string :=
  let testCode := "" in
  if decide (language = python) then
    generatePythonTest recordingName actions framework
  else if decide (framework = playwright) then
    generatePlaywrightTest recordingName actions language
  else if decide (framework = puppeteer) then
    generatePuppeteerTest actions language
  else testCode.

(** ** Handlers: errors, arguments, storage *)

(** The outcome of code that may throw. *)
Inductive Result (A : Type) : Type :=
  | Ok (a : A)
  | Throw (message : string).
Arguments Ok {A} a.
Arguments Throw {A} message.

(** A tool argument value: a JSON string, or any other JSON value. *)
Inductive ArgValue := JString (s : string) | JOther.

(** [request.params.arguments] of a request that carries an arguments
    object, used as a map. *)
Abbreviation Args := (gmap string ArgValue).

(** The part of the file system the handlers touch. *)
Record FileSystem := mkFileSystem {
  directories : gset string;
  files : gmap string string
}.

(** Everything a handler can read and write. *)
Record World := mkWorld {
  session : Session;
  disk : FileSystem
}.

(** What the handlers take from their environment: the working directory,
    node's [path.join], the operating system's refusal of a path (the
    message of the exception [fs] throws, if any) and the wording of a zod
    validation error for a list of offending fields.  The refusal is one
    verdict per path: a run in which the operating system treats the
    creation of a directory and the writing of a file at one and the same
    path differently is not described. *)
Record Env := mkEnv {
  cwd : string;
  pathJoin : string -> string -> string;
  refuses : string -> option string;
  zodMessage : list string -> string
}.

(** The handler result [{ content: [{ type: "text", text }], isError? }]. *)
Record Response := mkResponse {
  text : string;
  isError : bool
}.

(** A handler body: reads and updates the world and may throw; updates made
    before a throw stay. *)
Definition Handler (A : Type) : Type := World -> Result A * World.

Definition throw {A} (message : string) : Handler A := fun w => (Throw message, w).

(** Sequencing, written [x ← m; k] and [m;; k] below. *)
#[global] Instance Handler_ret : MRet Handler := fun A a w => (Ok a, w).
#[global] Instance Handler_bind : MBind Handler := fun A B k m w =>
  match m w with
  | (Ok a, w') => k a w'
  | (Throw message, w') => (Throw message, w')
  end.

Definition getSession : Handler Session := fun w => (Ok (session w), w).
Definition setSession (s : Session) : Handler unit :=
  fun w => (Ok tt, {| session := s; disk := disk w |}).

(** Nothing to do (an [if] without [else] whose condition is false). *)
Definition skip : Handler unit := mret tt.

(** [return { content: [{ type: "text", text }] }]. *)
Definition reply (t : string) : Handler Response :=
  mret {| text := t; isError := false |}.

(** [try { body } catch (error) { return { content: [{ type: "text", text:
    `Error: ${errorMessage}` }], isError: true } }]. *)
Definition tryCatch (body : Handler Response) (w : World) : Response * World :=
  match body w with
  | (Ok r, w') => (r, w')
  | (Throw message, w') => ({| text := "Error: " +:+ message; isError := true |}, w')
  end.

(** *** Argument validation (zod) *)

(** A required [z.string()] field. *)
Definition stringField (args : Args) (field : string) : option string :=
  match args !! field with
  | Some (JString s) => Some s
  | _ => None
  end.

(** [z.enum(["playwright", "puppeteer", "selenium"])]. *)
Definition frameworkOfString (s : string) : option Framework :=
  if String.eqb s "playwright" then Some playwright
  else if String.eqb s "puppeteer" then Some puppeteer
  else if String.eqb s "selenium" then Some selenium
  else None.

(** [z.enum(["typescript", "javascript", "python"])]. *)
Definition languageOfString (s : string) : option Language :=
  if String.eqb s "typescript" then Some typescript
  else if String.eqb s "javascript" then Some javascript
  else if String.eqb s "python" then Some python
  else None.

(** The field name, when its validation failed. *)
Definition issue {A} (field : string) (parsed : option A) : list string :=
  match parsed with
  | Some _ => []
  | None => [field]
  end.

(** [RecordStartSchema.parse(args)]: [name] is any string. *)
Definition RecordStartSchema_parse (E : Env) (args : Args) : Handler string :=
  match stringField args "name" with
  | Some name => mret name
  | None => throw (zodMessage E ["name"])
  end.

(** The validation of [GenerateTestSchema]: the parsed fields, or every
    offending field (zod reports them all). *)
Definition checkGenerateArgs (args : Args) : (Framework * Language * string) + list string :=
  let framework := stringField args "framework" ≫= frameworkOfString in
  let language := stringField args "language" ≫= languageOfString in
  let fileName := stringField args "fileName" in
  match framework, language, fileName with
  | Some f, Some l, Some n => inl (f, l, n)
  | _, _, _ =>
      inr (issue "framework" framework ++
           issue "language" language ++
           issue "fileName" fileName)
  end.

(** [GenerateTestSchema.parse(args)]. *)
Definition GenerateTestSchema_parse (E : Env) (args : Args) : Handler (Framework * Language * string) :=
  match checkGenerateArgs args with
  | inl parsed => mret parsed
  | inr issues => throw (zodMessage E issues)
  end.

(** *** Storage ([fs]) *)

(** [fs.existsSync(p)]. *)
Definition existsSync (p : string) : Handler bool := fun w =>
  (Ok (bool_decide (p ∈ directories (disk w)) ||
       bool_decide (is_Some (files (disk w) !! p))), w).

(** [fs.mkdirSync(p, { recursive: true })]. *)
Definition mkdirSync (E : Env) (p : string) : Handler unit := fun w =>
  match refuses E p with
  | Some message => (Throw message, w)
  | None =>
      (Ok tt, {| session := session w;
                 disk := {| directories := {[ p ]} ∪ directories (disk w);
                            files := files (disk w) |} |})
  end.

(** [fs.writeFileSync(p, data)]: the file's whole content becomes [data]. *)
Definition writeFileSync (E : Env) (p data : string) : Handler unit := fun w =>
  match refuses E p with
  | Some message => (Throw message, w)
  | None =>
      (Ok tt, {| session := session w;
                 disk := {| directories := directories (disk w);
                            files := <[ p := data ]> (files (disk w)) |} |})
  end.

(** *** The recording tools *)

(** [case "playwright_record_start"]. *)
Definition playwright_record_start (E : Env) (args : Args) : Handler Response :=
  name ← RecordStartSchema_parse E args;
  setSession {| isRecording := true;
                recordingName := name;
                recordedActions := [] |};;
  reply ("Recording started: " +:+ name +:+
         ". All subsequent actions will be recorded.").

(** [case "playwright_record_stop"]. *)
Definition playwright_record_stop : Handler Response :=
  s ← getSession;
  setSession {| isRecording := false;
                recordingName := recordingName s;
                recordedActions := recordedActions s |};;
  s ← getSession;
  reply ("Recording stopped. " +:+ showNat (length (recordedActions s)) +:+
         " actions recorded. Use playwright_generate_test to create a test script.").

(** The wording of the two outcomes of [playwright_generate_test]. *)
Definition noActionsMessage : string :=
  "No actions recorded. Start recording with playwright_record_start first.".

Definition generatedMessage (filePath : string) (framework : Framework) (language : Language) (count : nat) (testCode : string) : string :=
  "Test generated successfully!" +:+ nl +:+
  "File: " +:+ filePath +:+ nl +:+
  "Framework: " +:+ showFramework framework +:+ nl +:+
  "Language: " +:+ showLanguage language +:+ nl +:+
  "Actions: " +:+ showNat count +:+ nl +:+ nl +:+ testCode.

(** [case "playwright_generate_test"]. *)
Definition playwright_generate_test (E : Env) (args : Args) : Handler Response :=
  '(framework, language, fileName) ← GenerateTestSchema_parse E args;
  s ← getSession;
  if decide (length (recordedActions s) = 0) then
    reply noActionsMessage
  else
    let testCode :=
      testCodeFor (recordingName s) (recordedActions s) framework language in
    let testsDir := pathJoin E (cwd E) "generated-tests" in
    present ← existsSync testsDir;
    (if present : bool then skip else mkdirSync E testsDir);;
    let filePath := pathJoin E testsDir fileName in
    writeFileSync E filePath testCode;;
    s ← getSession;
    reply (generatedMessage filePath framework language
             (length (recordedActions s)) testCode).

(** The three tools as the request handler runs them, inside its
    [try]/[catch]. *)
Definition recordStart (E : Env) (args : Args) : World -> Response * World :=
  tryCatch (playwright_record_start E args).

Definition recordStop : World -> Response * World :=
  tryCatch playwright_record_stop.

Definition generateTest (E : Env) (args : Args) : World -> Response * World :=
  tryCatch (playwright_generate_test E args).

(** Well-formed arguments of the two tools that take some. *)
Definition startArgs (name : string) : Args := {[ "name" := JString name ]}.

Definition generateArgs (framework : Framework) (language : Language) (fileName : string) : Args :=
  <[ "framework" := JString (showFramework framework) ]>
    (<[ "language" := JString (showLanguage language) ]>
       {[ "fileName" := JString fileName ]}).

(** A sample environment: a POSIX-like [path.join] on plain segments and an
    operating system that refuses nothing. *)
Definition sampleEnv : Env :=
  {| cwd := "/srv";
     pathJoin := fun a b => a +:+ "/" +:+ b;
     refuses := fun _ => None;
     zodMessage := fun fields => "invalid: " +:+ joinAll fields |}.

Definition emptyDisk : FileSystem := {| directories := ∅; files := ∅ |}.
Definition initialWorld : World := {| session := initialSession; disk := emptyDisk |}.

(** ** Reading the generated text *)

(** The statement that one loop iteration appends for [action]: the body of
    the selected case, or nothing when no case is selected. *)
Definition statementOf (cases : Cases) (action : RecordedAction) : option string :=
  (fun body : Template => body action) <$> selectCase cases (type action).

(** The action-statements emitted for a log, in emission order. *)
Definition statements (cases : Cases) (actions : list RecordedAction) : list string :=
  omap (statementOf cases) actions.

(** The kinds a [switch] has a case for. *)
Definition caseLabels (cases : Cases) : list string := cases.*1.

(** [action]'s kind has a mapping in the [switch]. *)
Definition hasMapping (cases : Cases) (action : RecordedAction) : Prop :=
  type action ∈ caseLabels cases.

#[global] Instance hasMapping_dec cases action : Decision (hasMapping cases action).
Proof. unfold hasMapping. apply _. Defined.

(** The [switch] that the dispatch of [testCodeFor] reaches for a framework
    and a language; there is none for Selenium outside Python. *)
Definition casesFor (framework : Framework) (language : Language) : Cases :=
  match language, framework with
  | python, playwright => pythonPlaywrightCases
  | python, _ => pythonSeleniumCases
  | _, playwright => playwrightCases
  | _, puppeteer => puppeteerCases
  | _, selenium => []
  end.

(** The four parts of the text around the action-statements, read off the
    generators: the import lines, the line that opens the entry point, the
    set-up lines after it, and the lines after the last statement. *)
Definition importLines (framework : Framework) (language : Language) : string :=
  match language, framework with
  | python, playwright =>
      "from playwright.sync_api import sync_playwright" +:+ nl +:+ nl
  | python, _ =>
      "from selenium import webdriver" +:+ nl +:+
      "from selenium.webdriver.common.by import By" +:+ nl +:+
      "from selenium.webdriver.support.ui import WebDriverWait" +:+ nl +:+
      "from selenium.webdriver.support import expected_conditions as EC" +:+ nl +:+ nl
  | _, playwright => playwrightImports language
  | _, puppeteer => puppeteerImports language
  | _, selenium => ""
  end.

Definition entryPoint (recordingName : string) (framework : Framework) (language : Language) : string :=
  match language, framework with
  | python, _ => pythonDef recordingName
  | _, playwright =>
      "test('" +:+ orElse recordingName "recorded test" +:+
      "', async ({ page }) => {" +:+ nl
  | _, puppeteer => "(async () => {" +:+ nl
  | _, selenium => ""
  end.

Definition setupLines (framework : Framework) (language : Language) : string :=
  match language, framework with
  | python, playwright =>
      "    with sync_playwright() as p:" +:+ nl +:+
      "        browser = p.chromium.launch()" +:+ nl +:+
      "        page = browser.new_page()" +:+ nl +:+ nl
  | python, _ => "    driver = webdriver.Chrome()" +:+ nl +:+ nl
  | _, playwright => ""
  | _, puppeteer =>
      "  const browser = await puppeteer.launch();" +:+ nl +:+
      "  const page = await browser.newPage();" +:+ nl +:+ nl
  | _, selenium => ""
  end.

Definition teardownLines (framework : Framework) (language : Language) : string :=
  match language, framework with
  | python, playwright => nl +:+ "        browser.close()" +:+ nl
  | python, _ => nl +:+ "    driver.quit()" +:+ nl
  | _, playwright => "});" +:+ nl
  | _, puppeteer => nl +:+ "  await browser.close();" +:+ nl +:+ "})();" +:+ nl
  | _, selenium => ""
  end.

(** The text before the first action-statement. *)
Definition prologue (recordingName : string) (framework : Framework) (language : Language) : string :=
  importLines framework language +:+
  entryPoint recordingName framework language +:+
  setupLines framework language.

(** [needle] occurs in [haystack]. *)
Definition occursIn (needle haystack : string) : Prop :=
  exists before after, haystack = before +:+ needle +:+ after.


(** The object literals the automation handlers record. *)
Inductive recordable : ActionInput -> Prop :=
  | rec_navigate u : recordable (Recorded.navigate u)
  | rec_screenshot n : recordable (Recorded.screenshot n)
  | rec_click sel : recordable (Recorded.click sel)
  | rec_fill sel v : recordable (Recorded.fill sel v)
  | rec_type sel text : recordable (Recorded.typeText sel text)
  | rec_hover sel : recordable (Recorded.hover sel)
  | rec_select sel v : recordable (Recorded.select sel v)
  | rec_waitForSelector sel : recordable (Recorded.waitForSelector sel)
  | rec_press k : recordable (Recorded.press k)
  | rec_check sel : recordable (Recorded.check sel)
  | rec_uncheck sel : recordable (Recorded.uncheck sel).

(** The strings an action captured from the user's call. *)
Definition captured (action : RecordedAction) : list string :=
  omap id [selector action; value action; url action; key action].

(** The number of line breaks in a text. *)
Fixpoint lineBreaks (s : string) : nat :=
  match s with
  | EmptyString => 0
  | String c rest => (if Ascii.eqb c "010" then 1 else 0) + lineBreaks rest
  end.

(** The text ends with a line break. *)
Definition endsLine (s : string) : Prop := exists line, s = line +:+ nl.

(** None of the strings the action captured holds a line break. *)
Definition plainPayload (action : RecordedAction) : Prop :=
  Forall (fun v => lineBreaks v = 0) (captured action).

(** A run of [recordAction] calls, each with its own [Date.now()]. *)
Definition recordAll (calls : list (Z * ActionInput)) (s : Session) : Session :=
  fold_left (fun s call => recordAction call.1 call.2 s) calls s.

(** Replacing the session of a world. *)
Definition onSession (f : Session -> Session) (w : World) : World :=
  {| session := f (session w); disk := disk w |}.

(** The directory and the file [playwright_generate_test] writes to. *)
Definition testsDirOf (E : Env) : string := pathJoin E (cwd E) "generated-tests".
Definition filePathOf (E : Env) (fileName : string) : string :=
  pathJoin E (testsDirOf E) fileName.

(** The operating system lets [playwright_generate_test] create its
    directory, if absent, and write its file. *)
Definition storageAccepts (E : Env) (w : World) (fileName : string) : Prop :=
  (testsDirOf E ∈ directories (disk w) \/ is_Some (files (disk w) !! testsDirOf E) \/
   refuses E (testsDirOf E) = None) /\
  refuses E (filePathOf E fileName) = None.

(** The disk after a successful run of [playwright_generate_test]. *)
Definition diskAfterWrite (E : Env) (d : FileSystem) (fileName testCode : string) : FileSystem :=
  {| directories :=
       if bool_decide (testsDirOf E ∈ directories d) ||
          bool_decide (is_Some (files d !! testsDirOf E))
       then directories d
       else {[ testsDirOf E ]} ∪ directories d;
     files := <[ filePathOf E fileName := testCode ]> (files d) |}.

(** Every character of [s] satisfies [p]. *)
Fixpoint everyChar (p : ascii -> bool) (s : string) : bool :=
  match s with
  | EmptyString => true
  | String c rest => p c && everyChar p rest
  end.

(** A character allowed in an identifier of the target languages. *)
Definition identifierChar (c : ascii) : bool := isAlnum c || Ascii.eqb c "_".

(** ** Sample inputs *)

(** Three recorded actions; the second kind is mapped only by the
    Playwright script generator. *)
Definition sampleLog : list RecordedAction :=
  [ withTimestamp (Recorded.navigate "https://a.test") 1;
    withTimestamp (Recorded.check "#agree") 2;
    withTimestamp (Recorded.click "#go") 3 ].

(** The world after [start("s1")], a navigation, a click and [stop()]. *)
Definition roundTripWorld (E : Env) (w : World) (name u sel : string) (t1 t2 : Z) : World :=
  let w := (recordStart E (startArgs name) w).2 in
  let w := onSession (recordAction t1 (Recorded.navigate u)) w in
  let w := onSession (recordAction t2 (Recorded.click sel)) w in
  (recordStop w).2.

(** ** The whole request handler *)

(** The double quote character, for the messages that hold one. *)
Definition dq : string := String "034"%char "".

(** [texts.join(sep)]. *)
Fixpoint joinWith (sep : string) (l : list string) : string :=
  match l with
  | [] => ""
  | [x] => x
  | x :: rest => x +:+ sep +:+ joinWith sep rest
  end.

(** *** Tool arguments *)

(** A JSON value of [request.params.arguments].  A number is kept as the
    text that [`${n}`] prints for it; [JsOther] is null, an array or an
    object.  The arguments object is a map from keys to such values.  A
    request that carries no arguments object at all is not described: the
    handler is modelled for requests that carry one, possibly empty. *)
Inductive Json :=
  | JsString (s : string)
  | JsNumber (shown : string)
  | JsBoolean (b : bool)
  | JsOther.

Abbreviation JsonArgs := (gmap string Json).

(** What the three recording tools see of a value: they only read strings. *)
Definition toArgValue (j : Json) : ArgValue :=
  match j with
  | JsString s => JString s
  | _ => JOther
  end.

(** The outcome of validating one field: [None] is a validation issue. *)
Definition requiredString (args : JsonArgs) (field : string) : option string :=
  match args !! field with
  | Some (JsString s) => Some s
  | _ => None
  end.

(** [z.string().url()]; whether a string is a URL is the runtime's word. *)
Definition requiredUrl (isUrl : string -> bool) (args : JsonArgs) (field : string) : option string :=
  match args !! field with
  | Some (JsString s) => if isUrl s then Some s else None
  | _ => None
  end.

(** [z.number()] and [z.boolean()]. *)
Definition requiredNumber (args : JsonArgs) (field : string) : option string :=
  match args !! field with
  | Some (JsNumber n) => Some n
  | _ => None
  end.

Definition requiredBoolean (args : JsonArgs) (field : string) : option bool :=
  match args !! field with
  | Some (JsBoolean b) => Some b
  | _ => None
  end.

(** [z.enum([...]).optional()], [z.number().optional()] and
    [z.boolean().optional()]: an absent key is fine and reads [undefined]
    (the inner [None]). *)
Definition optionalEnum (allowed : list string) (args : JsonArgs) (field : string) : option (option string) :=
  match args !! field with
  | None => Some None
  | Some (JsString s) => if bool_decide (s ∈ allowed) then Some (Some s) else None
  | Some _ => None
  end.

Definition optionalNumber (args : JsonArgs) (field : string) : option (option string) :=
  match args !! field with
  | None => Some None
  | Some (JsNumber n) => Some (Some n)
  | Some _ => None
  end.

Definition optionalBoolean (args : JsonArgs) (field : string) : option (option bool) :=
  match args !! field with
  | None => Some None
  | Some (JsBoolean b) => Some (Some b)
  | Some _ => None
  end.

(** *** The browser library *)

(** The objects Playwright hands out. *)
Inductive Browser := BrowserObject (id : nat).
Inductive BrowserContext := ContextObject (id : nat).
Inductive Page := PageObject (id : nat).

(** The outcome of awaiting a call that returns nothing: the message of the
    exception it threw, if any. *)
Definition Outcome : Type := option string.

(** The calls the server makes into Playwright, each with the outcome the
    library gives for its arguments.  Options the handlers pass through
    unread ([button], [clickCount], [delay], [timeout], [state], viewport
    sizes) are arguments here.  One record describes the library at one
    moment; where its answers may change between calls, a property takes a
    record per call. *)
Record Playwright := mkPlaywright {
  chromium_launch : Result Browser;
  browser_newContext : Browser -> Result BrowserContext;
  context_newPage : BrowserContext -> Result Page;
  page_close : Page -> Outcome;
  context_close : BrowserContext -> Outcome;
  browser_close : Browser -> Outcome;
  page_setViewportSize : Page -> string -> string -> Outcome;
  page_goto : Page -> string -> string -> Outcome;
  (** the result is the buffer's [toString("base64")] *)
  page_screenshot : Page -> bool -> Result string;
  page_click : Page -> string -> option string -> option string -> Outcome;
  page_fill : Page -> string -> string -> Outcome;
  page_type : Page -> string -> string -> option string -> Outcome;
  (** the [textContent] of each matching element *)
  page_textContents : Page -> string -> Result (list (option string));
  page_textContent : Page -> string -> Result (option string);
  (** the result is [JSON.stringify(result, null, 2)], [undefined] included *)
  page_evaluate : Page -> string -> Result (option string);
  page_hover : Page -> string -> Outcome;
  page_selectOption : Page -> string -> string -> Outcome;
  page_waitForSelector : Page -> string -> option string -> option string -> Outcome;
  page_getAttribute : Page -> string -> string -> Result (option string);
  keyboard_press : Page -> string -> Outcome;
  page_goBack : Page -> Outcome;
  page_goForward : Page -> Outcome;
  page_reload : Page -> Outcome;
  page_check : Page -> string -> Outcome;
  page_uncheck : Page -> string -> Outcome;
  page_dragAndDrop : Page -> string -> string -> Outcome;
  page_url : Page -> string;
  page_title : Page -> Result string
}.

(** Everything outside the server: the environment of the recording tools,
    the URL test of zod and the browser library. *)
Record Runtime := mkRuntime {
  env : Env;
  isUrl : string -> bool;
  library : Playwright
}.

(** *** Server state *)

(** [class BrowserManager]: its three private fields. *)
Record BrowserManager := mkBrowserManager {
  browser : option Browser;
  context : option BrowserContext;
  page : option Page
}.

(** [new BrowserManager()]. *)
Definition newBrowserManager : BrowserManager :=
  {| browser := None; context := None; page := None |}.

(** The recording state, the disk and the browser manager. *)
Record Server := mkServer {
  world : World;
  manager : BrowserManager
}.

Definition initialServer : Server :=
  {| world := initialWorld; manager := newBrowserManager |}.

(** A handler body over the whole server state. *)
Definition Tool (A : Type) : Type := Server -> Result A * Server.

#[global] Instance Tool_ret : MRet Tool := fun A a s => (Ok a, s).
#[global] Instance Tool_bind : MBind Tool := fun A B k m s =>
  match m s with
  | (Ok a, s') => k a s'
  | (Throw message, s') => (Throw message, s')
  end.

Definition raise {A} (message : string) : Tool A := fun s => (Throw message, s).

(** A body that only touches the recording state and the disk. *)
Definition liftHandler {A} (h : Handler A) : Tool A := fun s =>
  match h (world s) with
  | (r, w') => (r, {| world := w'; manager := manager s |})
  end.

Definition getManager : Tool BrowserManager := fun s => (Ok (manager s), s).
Definition setManager (m : BrowserManager) : Tool unit :=
  fun s => (Ok tt, {| world := world s; manager := m |}).

(** [await call] for a library call. *)
Definition await {A} (call : Result A) : Tool A := fun s => (call, s).
Definition awaitDone (call : Outcome) : Tool unit := fun s =>
  match call with
  | Some message => (Throw message, s)
  | None => (Ok tt, s)
  end.

(** [recordAction(action)] inside a handler; [now] is [Date.now()]. *)
Definition record (now : Z) (action : ActionInput) : Tool unit := fun s =>
  (Ok tt, {| world := onSession (recordAction now action) (world s);
             manager := manager s |}).

(** *** [BrowserManager] methods *)

(** [ensureBrowser()]. *)
Definition ensureBrowser (P : Playwright) : Tool Browser :=
  m ← getManager;
  match browser m with
  | Some b => mret b
  | None =>
      b ← await (chromium_launch P);
      m ← getManager;
      setManager {| browser := Some b; context := context m; page := page m |};;
      mret b
  end.

(** [ensureContext()]. *)
Definition ensureContext (P : Playwright) : Tool BrowserContext :=
  m ← getManager;
  match context m with
  | Some c => mret c
  | None =>
      b ← ensureBrowser P;
      c ← await (browser_newContext P b);
      m ← getManager;
      setManager {| browser := browser m; context := Some c; page := page m |};;
      mret c
  end.

(** [ensurePage()]. *)
Definition ensurePage (P : Playwright) : Tool Page :=
  m ← getManager;
  match page m with
  | Some p => mret p
  | None =>
      c ← ensureContext P;
      p ← await (context_newPage P c);
      m ← getManager;
      setManager {| browser := browser m; context := context m; page := Some p |};;
      mret p
  end.

(** One [if (this.x) { await this.x.close(); this.x = null; }] of
    [closeBrowser()]. *)
Definition closePage (P : Playwright) : Tool unit :=
  m ← getManager;
  match page m with
  | Some p =>
      awaitDone (page_close P p);;
      m ← getManager;
      setManager {| browser := browser m; context := context m; page := None |}
  | None => mret tt
  end.

Definition closeContext (P : Playwright) : Tool unit :=
  m ← getManager;
  match context m with
  | Some c =>
      awaitDone (context_close P c);;
      m ← getManager;
      setManager {| browser := browser m; context := None; page := page m |}
  | None => mret tt
  end.

Definition closeBrowserObject (P : Playwright) : Tool unit :=
  m ← getManager;
  match browser m with
  | Some b =>
      awaitDone (browser_close P b);;
      m ← getManager;
      setManager {| browser := None; context := context m; page := page m |}
  | None => mret tt
  end.

(** [closeBrowser()]. *)
Definition closeBrowser (P : Playwright) : Tool unit :=
  closePage P;;
  closeContext P;;
  closeBrowserObject P.

(** [getCurrentPage()]. *)
Definition getCurrentPage : Tool (option Page) :=
  m ← getManager; mret (page m).

(** [setViewport(width, height)]. *)
Definition setViewport (P : Playwright) (width height : string) : Tool unit :=
  p ← ensurePage P;
  awaitDone (page_setViewportSize P p width height).

(** *** Responses *)

(** One item of [content]: [{ type: "text", text }] (the text is
    [undefined] when [JSON.stringify] gave none) or [{ type: "image", data,
    mimeType }]. *)
Inductive Content :=
  | TextContent (body : option string)
  | ImageContent (data mimeType : string).

(** What the request handler returns. *)
Record Reply := mkReply {
  content : list Content;
  replyIsError : bool
}.

(** The same response object, as the recording tools build it. *)
Definition ofResponse (r : Response) : Reply :=
  {| content := [TextContent (Some (text r))]; replyIsError := isError r |}.

Definition replyText (t : string) : Tool Reply :=
  mret {| content := [TextContent (Some t)]; replyIsError := false |}.

(** One of the three recording tools, inside the whole handler. *)
Definition recordingTool (h : Handler Response) : Tool Reply :=
  r ← liftHandler h; mret (ofResponse r).

(** [Schema.parse(args)]: the parsed fields, or a throw that names every
    offending field. *)
Definition validated {A} (R : Runtime) (parsed : option A) (issues : list string) : Tool A :=
  match parsed with
  | Some a => mret a
  | None => raise (zodMessage (env R) issues)
  end.

(** *** The automation tools *)

Section Tools.

Variable R : Runtime.
(** The value [Date.now()] has during the call. *)
Variable now : Z.
Variable args : JsonArgs.

Let P : Playwright := library R.

(** [case "playwright_navigate"]. *)
Definition playwright_navigate : Tool Reply :=
  let u := requiredUrl (isUrl R) args "url" in
  let waitUntil :=
    optionalEnum ["load"; "domcontentloaded"; "networkidle"; "commit"] args "waitUntil" in
  '(u, waitUntil) ← validated R (a ← u; b ← waitUntil; Some (a, b))
                      (issue "url" u ++ issue "waitUntil" waitUntil);
  p ← ensurePage P;
  awaitDone (page_goto P p u (default "networkidle" waitUntil));;
  record now (Recorded.navigate u);;
  replyText ("Successfully navigated to " +:+ u).

(** [case "playwright_screenshot"]. *)
Definition playwright_screenshot : Tool Reply :=
  let screenshotName := requiredString args "name" in
  let fullPage := optionalBoolean args "fullPage" in
  '(screenshotName, fullPage) ← validated R (a ← screenshotName; b ← fullPage; Some (a, b))
                                  (issue "name" screenshotName ++ issue "fullPage" fullPage);
  p ← ensurePage P;
  screenshot ← await (page_screenshot P p (default false fullPage));
  record now (Recorded.screenshot screenshotName);;
  mret {| content := [ TextContent (Some ("Screenshot captured: " +:+ screenshotName));
                       ImageContent screenshot "image/png" ];
          replyIsError := false |}.

(** [case "playwright_click"]. *)
Definition playwright_click : Tool Reply :=
  let sel := requiredString args "selector" in
  let button := optionalEnum ["left"; "right"; "middle"] args "button" in
  let clickCount := optionalNumber args "clickCount" in
  '(sel, button, clickCount) ← validated R (a ← sel; b ← button; c ← clickCount; Some (a, b, c))
      (issue "selector" sel ++ issue "button" button ++ issue "clickCount" clickCount);
  p ← ensurePage P;
  awaitDone (page_click P p sel button clickCount);;
  record now (Recorded.click sel);;
  replyText ("Clicked element: " +:+ sel).

(** [case "playwright_fill"]. *)
Definition playwright_fill : Tool Reply :=
  let sel := requiredString args "selector" in
  let v := requiredString args "value" in
  '(sel, v) ← validated R (a ← sel; b ← v; Some (a, b))
                (issue "selector" sel ++ issue "value" v);
  p ← ensurePage P;
  awaitDone (page_fill P p sel v);;
  record now (Recorded.fill sel v);;
  replyText ("Filled " +:+ sel +:+ " with: " +:+ v).

(** [case "playwright_type"]. *)
Definition playwright_type : Tool Reply :=
  let sel := requiredString args "selector" in
  let txt := requiredString args "text" in
  let delay := optionalNumber args "delay" in
  '(sel, txt, delay) ← validated R (a ← sel; b ← txt; c ← delay; Some (a, b, c))
      (issue "selector" sel ++ issue "text" txt ++ issue "delay" delay);
  p ← ensurePage P;
  awaitDone (page_type P p sel txt delay);;
  record now (Recorded.typeText sel txt);;
  replyText ("Typed " +:+ dq +:+ txt +:+ dq +:+ " into " +:+ sel).

(** The text of [playwright_extract_text] for several elements:
    [els.map((el) => el.textContent || "")], then the join or the notice. *)
Definition extractedTexts (contents : list (option string)) : string :=
  let texts := map (fun t => orElse (default "" t) "") contents in
  if decide (0 < length texts) then joinWith nl texts else "(no elements found)".

(** [case "playwright_extract_text"]. *)
Definition playwright_extract_text : Tool Reply :=
  let sel := requiredString args "selector" in
  let multiple := optionalBoolean args "multiple" in
  '(sel, multiple) ← validated R (a ← sel; b ← multiple; Some (a, b))
                       (issue "selector" sel ++ issue "multiple" multiple);
  p ← ensurePage P;
  if default false multiple : bool then
    contents ← await (page_textContents P p sel);
    replyText (extractedTexts contents)
  else
    t ← await (page_textContent P p sel);
    replyText (orElse (default "" t) "(empty)").

(** [case "playwright_evaluate"]. *)
Definition playwright_evaluate : Tool Reply :=
  let code := requiredString args "script" in
  code ← validated R code (issue "script" code);
  p ← ensurePage P;
  result ← await (page_evaluate P p code);
  mret {| content := [TextContent result]; replyIsError := false |}.

(** [case "playwright_hover"]. *)
Definition playwright_hover : Tool Reply :=
  let sel := requiredString args "selector" in
  sel ← validated R sel (issue "selector" sel);
  p ← ensurePage P;
  awaitDone (page_hover P p sel);;
  record now (Recorded.hover sel);;
  replyText ("Hovered over: " +:+ sel).

(** [case "playwright_select"]. *)
Definition playwright_select : Tool Reply :=
  let sel := requiredString args "selector" in
  let v := requiredString args "value" in
  '(sel, v) ← validated R (a ← sel; b ← v; Some (a, b))
                (issue "selector" sel ++ issue "value" v);
  p ← ensurePage P;
  awaitDone (page_selectOption P p sel v);;
  record now (Recorded.select sel v);;
  replyText ("Selected " +:+ dq +:+ v +:+ dq +:+ " in " +:+ sel).

(** [case "playwright_wait_for_selector"]. *)
Definition playwright_wait_for_selector : Tool Reply :=
  let sel := requiredString args "selector" in
  let timeout := optionalNumber args "timeout" in
  let state := optionalEnum ["attached"; "detached"; "visible"; "hidden"] args "state" in
  '(sel, timeout, state) ← validated R (a ← sel; b ← timeout; c ← state; Some (a, b, c))
      (issue "selector" sel ++ issue "timeout" timeout ++ issue "state" state);
  p ← ensurePage P;
  awaitDone (page_waitForSelector P p sel timeout state);;
  record now (Recorded.waitForSelector sel);;
  replyText ("Element appeared: " +:+ sel).

(** The text of [playwright_get_attribute]:
    [value ? `${attribute}="${value}"` : "(attribute not found)"]. *)
Definition attributeText (attr : string) (v : option string) : string :=
  match v with
  | Some (String c rest) => attr +:+ "=" +:+ dq +:+ String c rest +:+ dq
  | _ => "(attribute not found)"
  end.

(** [case "playwright_get_attribute"]. *)
Definition playwright_get_attribute : Tool Reply :=
  let sel := requiredString args "selector" in
  let attr := requiredString args "attribute" in
  '(sel, attr) ← validated R (a ← sel; b ← attr; Some (a, b))
                   (issue "selector" sel ++ issue "attribute" attr);
  p ← ensurePage P;
  v ← await (page_getAttribute P p sel attr);
  replyText (attributeText attr v).

(** [case "playwright_press_key"]. *)
Definition playwright_press_key : Tool Reply :=
  let k := requiredString args "key" in
  k ← validated R k (issue "key" k);
  p ← ensurePage P;
  awaitDone (keyboard_press P p k);;
  record now (Recorded.press k);;
  replyText ("Pressed key: " +:+ k).

(** [case "playwright_go_back"], [case "playwright_go_forward"] and
    [case "playwright_reload"]. *)
Definition playwright_go_back : Tool Reply :=
  p ← ensurePage P;
  awaitDone (page_goBack P p);;
  replyText "Navigated back".

Definition playwright_go_forward : Tool Reply :=
  p ← ensurePage P;
  awaitDone (page_goForward P p);;
  replyText "Navigated forward".

Definition playwright_reload : Tool Reply :=
  p ← ensurePage P;
  awaitDone (page_reload P p);;
  replyText "Page reloaded".

(** [case "playwright_set_viewport"]. *)
Definition playwright_set_viewport : Tool Reply :=
  let width := requiredNumber args "width" in
  let height := requiredNumber args "height" in
  '(width, height) ← validated R (a ← width; b ← height; Some (a, b))
                       (issue "width" width ++ issue "height" height);
  setViewport P width height;;
  replyText ("Viewport set to " +:+ width +:+ "x" +:+ height).

(** [case "playwright_checkbox"]. *)
Definition playwright_checkbox : Tool Reply :=
  let sel := requiredString args "selector" in
  let checked := requiredBoolean args "checked" in
  '(sel, checked) ← validated R (a ← sel; b ← checked; Some (a, b))
                      (issue "selector" sel ++ issue "checked" checked);
  p ← ensurePage P;
  (if checked : bool then
     awaitDone (page_check P p sel);;
     record now (Recorded.check sel)
   else
     awaitDone (page_uncheck P p sel);;
     record now (Recorded.uncheck sel));;
  replyText ("Checkbox " +:+ (if checked : bool then "checked" else "unchecked")
             +:+ ": " +:+ sel).

(** [case "playwright_drag_and_drop"]. *)
Definition playwright_drag_and_drop : Tool Reply :=
  let source := requiredString args "sourceSelector" in
  let target := requiredString args "targetSelector" in
  '(source, target) ← validated R (a ← source; b ← target; Some (a, b))
                        (issue "sourceSelector" source ++ issue "targetSelector" target);
  p ← ensurePage P;
  awaitDone (page_dragAndDrop P p source target);;
  replyText ("Dragged " +:+ source +:+ " to " +:+ target).

(** [case "playwright_get_page_info"]. *)
Definition playwright_get_page_info : Tool Reply :=
  p ← ensurePage P;
  let u := page_url P p in
  title ← await (page_title P p);
  replyText ("URL: " +:+ u +:+ nl +:+ "Title: " +:+ title).

(** [case "playwright_close"]. *)
Definition playwright_close : Tool Reply :=
  closeBrowser P;;
  liftHandler (s ← getSession;
               setSession {| isRecording := false;
                             recordedActions := [];
                             recordingName := recordingName s |});;
  replyText "Browser closed successfully".

(** The [switch (name)] of the request handler, in source order; the three
    recording tools read their arguments as before. *)
Definition toolCases : list (string * Tool Reply) :=
  [ ("playwright_navigate", playwright_navigate);
    ("playwright_screenshot", playwright_screenshot);
    ("playwright_click", playwright_click);
    ("playwright_fill", playwright_fill);
    ("playwright_type", playwright_type);
    ("playwright_extract_text", playwright_extract_text);
    ("playwright_evaluate", playwright_evaluate);
    ("playwright_hover", playwright_hover);
    ("playwright_select", playwright_select);
    ("playwright_wait_for_selector", playwright_wait_for_selector);
    ("playwright_get_attribute", playwright_get_attribute);
    ("playwright_press_key", playwright_press_key);
    ("playwright_go_back", playwright_go_back);
    ("playwright_go_forward", playwright_go_forward);
    ("playwright_reload", playwright_reload);
    ("playwright_set_viewport", playwright_set_viewport);
    ("playwright_checkbox", playwright_checkbox);
    ("playwright_drag_and_drop", playwright_drag_and_drop);
    ("playwright_get_page_info", playwright_get_page_info);
    ("playwright_record_start",
       recordingTool (playwright_record_start (env R) (toArgValue <$> args)));
    ("playwright_record_stop",
       recordingTool playwright_record_stop);
    ("playwright_generate_test",
       recordingTool (playwright_generate_test (env R) (toArgValue <$> args)));
    ("playwright_close", playwright_close) ].

End Tools.

(** The case a [switch (name)] selects, as [selectCase] for any bodies. *)
Fixpoint selectTool {A} (cases : list (string * A)) (name : string) : option A :=
  match cases with
  | [] => None
  | (label, body) :: rest =>
      if String.eqb name label then Some body else selectTool rest name
  end.

(** The handler of [CallToolRequestSchema] for a request that carries the
    arguments object [args]: the [switch] with its
    [default: throw new Error(`Unknown tool: ${name}`)], inside the
    [try]/[catch]. *)
Definition callTool (R : Runtime) (now : Z) (name : string) (args : JsonArgs) (s : Server) : Reply * Server :=
  let body :=
    match selectTool (toolCases R now args) name with
    | Some body => body
    | None => raise ("Unknown tool: " +:+ name)
    end in
  match body s with
  | (Ok r, s') => (r, s')
  | (Throw message, s') =>
      ({| content := [TextContent (Some ("Error: " +:+ message))];
          replyIsError := true |}, s')
  end.

(** The [name] of each entry of the [tools] array, which the handler of
    [ListToolsRequestSchema] returns. *)
Definition toolNames : list string :=
  [ "playwright_navigate"; "playwright_screenshot"; "playwright_click";
    "playwright_fill"; "playwright_type"; "playwright_extract_text";
    "playwright_evaluate"; "playwright_hover"; "playwright_select";
    "playwright_wait_for_selector"; "playwright_get_attribute";
    "playwright_press_key"; "playwright_go_back"; "playwright_go_forward";
    "playwright_reload"; "playwright_set_viewport"; "playwright_checkbox";
    "playwright_drag_and_drop"; "playwright_get_page_info";
    "playwright_record_start"; "playwright_record_stop";
    "playwright_generate_test"; "playwright_close" ].

(** *** Reading the handler *)

(** The manager never holds a page without its context, nor a context
    without its browser. *)
Definition nested (m : BrowserManager) : Prop :=
  (is_Some (page m) -> is_Some (context m)) /\
  (is_Some (context m) -> is_Some (browser m)).

(** The tools that drive the browser: every tool but the three recording
    tools and [playwright_close]. *)
Definition automationTools : list string :=
  [ "playwright_navigate"; "playwright_screenshot"; "playwright_click";
    "playwright_fill"; "playwright_type"; "playwright_extract_text";
    "playwright_evaluate"; "playwright_hover"; "playwright_select";
    "playwright_wait_for_selector"; "playwright_get_attribute";
    "playwright_press_key"; "playwright_go_back"; "playwright_go_forward";
    "playwright_reload"; "playwright_set_viewport"; "playwright_checkbox";
    "playwright_drag_and_drop"; "playwright_get_page_info" ].

(** The object literal that a tool passes to [recordAction] for given
    arguments, for the tools that call it. *)
Definition recordedInput (name : string) (args : JsonArgs) : option ActionInput :=
  let sel := requiredString args "selector" in
  mjoin (selectTool
    [ ("playwright_navigate", Recorded.navigate <$> requiredString args "url");
      ("playwright_screenshot", Recorded.screenshot <$> requiredString args "name");
      ("playwright_click", Recorded.click <$> sel);
      ("playwright_fill",
         a ← sel; b ← requiredString args "value"; Some (Recorded.fill a b));
      ("playwright_type",
         a ← sel; b ← requiredString args "text"; Some (Recorded.typeText a b));
      ("playwright_hover", Recorded.hover <$> sel);
      ("playwright_select",
         a ← sel; b ← requiredString args "value"; Some (Recorded.select a b));
      ("playwright_wait_for_selector", Recorded.waitForSelector <$> sel);
      ("playwright_press_key", Recorded.press <$> requiredString args "key");
      ("playwright_checkbox",
         a ← sel; b ← requiredBoolean args "checked";
         Some (if b : bool then Recorded.check a else Recorded.uncheck a)) ]
    name).

(** The world after a tool call that recorded [input], or recorded nothing. *)
Definition afterRecording (now : Z) (input : option ActionInput) (w : World) : World :=
  match input with
  | Some i => onSession (recordAction now i) w
  | None => w
  end.

(** [entry] holds every field of [input] as given, and the time [now]. *)
Definition holdsInput (entry : RecordedAction) (input : ActionInput) (now : Z) : Prop :=
  type entry = in_type input /\
  selector entry = in_selector input /\
  value entry = in_value input /\
  url entry = in_url input /\
  script entry = in_script input /\
  key entry = in_key input /\
  attribute entry = in_attribute input /\
  description entry = in_description input /\
  timestamp entry = now.

(** [entry] is the action that the tool of [call] passes to [recordAction]
    for the arguments of [call], stamped with the clock reading of [call]. *)
Definition recordedAt (entry : RecordedAction) (call : Runtime * Z * string * JsonArgs) : Prop :=
  let '(_, now, name, args) := call in
  exists input, recordedInput name args = Some input /\ holdsInput entry input now.

(** The log holds, in call order, one entry for some of the calls, each
    recorded at its call. *)
Definition recordedInOrder (log : list RecordedAction) (calls : list (Runtime * Z * string * JsonArgs)) : Prop :=
  exists recorded, sublist recorded calls /\ Forall2 recordedAt log recorded.

(** Every entry of a log was built by a handler's call of [recordAction]. *)
Definition wellRecorded (log : list RecordedAction) : Prop :=
  Forall (fun a => exists input now, recordable input /\ a = withTimestamp input now) log.

(** The fields of an action that the templates read. *)
Definition payload (a : RecordedAction) : string * option string * option string * option string * option string :=
  (type a, selector a, value a, url a, key a).

(** [a] with each absent payload field set to the string [undefined]. *)
Definition spelledOut (a : RecordedAction) : RecordedAction :=
  {| type := type a;
     selector := Some (tpl (selector a));
     value := Some (tpl (value a));
     url := Some (tpl (url a));
     script := script a;
     key := Some (tpl (key a));
     attribute := attribute a;
     timestamp := timestamp a;
     description := description a |}.

(** The generator writes a statement for [action] wherever it stands in a
    log: the text is the prologue, the statements of the actions before,
    the body of the case selected by the kind of [action], which ends with
    a line break, the statements of the actions after, and the closing
    lines. *)
Definition rendersAction (framework : Framework) (language : Language) (action : RecordedAction) : Prop :=
  exists stmt,
    statementOf (casesFor framework language) action = Some stmt /\
    endsLine stmt /\
    forall name before after,
      testCodeFor name (before ++ action :: after) framework language =
      prologue name framework language +:+
      joinAll (statements (casesFor framework language) before) +:+
      stmt +:+
      joinAll (statements (casesFor framework language) after) +:+
      teardownLines framework language.

(** The generator leaves no trace of [action]: the text is that of the log
    without it. *)
Definition skipsAction (framework : Framework) (language : Language) (action : RecordedAction) : Prop :=
  forall name before after,
    testCodeFor name (before ++ action :: after) framework language =
    testCodeFor name (before ++ after) framework language.

(** A call that returned. *)
Definition returned {A} (call : Result A) : Prop :=
  match call with
  | Ok _ => True
  | Throw _ => False
  end.

(** A browser library none of whose calls throws, whatever the arguments
    and whatever it returns. *)
Record neverFails (P : Playwright) : Prop := mkNeverFails {
  launch_returns : returned (chromium_launch P);
  newContext_returns : forall b, returned (browser_newContext P b);
  newPage_returns : forall c, returned (context_newPage P c);
  page_close_returns : forall p, page_close P p = None;
  context_close_returns : forall c, context_close P c = None;
  browser_close_returns : forall b, browser_close P b = None;
  setViewportSize_returns : forall p w h, page_setViewportSize P p w h = None;
  goto_returns : forall p u w, page_goto P p u w = None;
  screenshot_returns : forall p full, returned (page_screenshot P p full);
  click_returns : forall p sel button count, page_click P p sel button count = None;
  fill_returns : forall p sel v, page_fill P p sel v = None;
  type_returns : forall p sel v delay, page_type P p sel v delay = None;
  textContents_returns : forall p sel, returned (page_textContents P p sel);
  textContent_returns : forall p sel, returned (page_textContent P p sel);
  evaluate_returns : forall p code, returned (page_evaluate P p code);
  hover_returns : forall p sel, page_hover P p sel = None;
  selectOption_returns : forall p sel v, page_selectOption P p sel v = None;
  waitForSelector_returns : forall p sel state t, page_waitForSelector P p sel state t = None;
  getAttribute_returns : forall p sel attr, returned (page_getAttribute P p sel attr);
  press_returns : forall p k, keyboard_press P p k = None;
  goBack_returns : forall p, page_goBack P p = None;
  goForward_returns : forall p, page_goForward P p = None;
  reload_returns : forall p, page_reload P p = None;
  check_returns : forall p sel, page_check P p sel = None;
  uncheck_returns : forall p sel, page_uncheck P p sel = None;
  dragAndDrop_returns : forall p src dst, page_dragAndDrop P p src dst = None;
  title_returns : forall p, returned (page_title P p)
}.

(** A browser library in which every call succeeds. *)
Definition obligingLibrary : Playwright :=
  {| chromium_launch := Ok (BrowserObject 1);
     browser_newContext := fun _ => Ok (ContextObject 1);
     context_newPage := fun _ => Ok (PageObject 1);
     page_close := fun _ => None;
     context_close := fun _ => None;
     browser_close := fun _ => None;
     page_setViewportSize := fun _ _ _ => None;
     page_goto := fun _ _ _ => None;
     page_screenshot := fun _ _ => Ok "iVBORw0KGgo=";
     page_click := fun _ _ _ _ => None;
     page_fill := fun _ _ _ => None;
     page_type := fun _ _ _ _ => None;
     page_textContents := fun _ _ => Ok [Some "a"; None];
     page_textContent := fun _ _ => Ok (Some "a");
     page_evaluate := fun _ _ => Ok (Some "1");
     page_hover := fun _ _ => None;
     page_selectOption := fun _ _ _ => None;
     page_waitForSelector := fun _ _ _ _ => None;
     page_getAttribute := fun _ _ _ => Ok (Some "x");
     keyboard_press := fun _ _ => None;
     page_goBack := fun _ => None;
     page_goForward := fun _ => None;
     page_reload := fun _ => None;
     page_check := fun _ _ => None;
     page_uncheck := fun _ _ => None;
     page_dragAndDrop := fun _ _ _ => None;
     page_url := fun _ => "https://a.test/";
     page_title := fun _ => Ok "A" |}.

(** A browser library in which every call that can throw does. *)
Definition brokenLibrary : Playwright :=
  {| chromium_launch := Throw "no browser";
     browser_newContext := fun _ => Throw "closed";
     context_newPage := fun _ => Throw "closed";
     page_close := fun _ => Some "closed";
     context_close := fun _ => Some "closed";
     browser_close := fun _ => Some "closed";
     page_setViewportSize := fun _ _ _ => Some "closed";
     page_goto := fun _ _ _ => Some "net::ERR_FAILED";
     page_screenshot := fun _ _ => Throw "closed";
     page_click := fun _ _ _ _ => Some "Timeout 30000ms exceeded.";
     page_fill := fun _ _ _ => Some "Timeout 30000ms exceeded.";
     page_type := fun _ _ _ _ => Some "Timeout 30000ms exceeded.";
     page_textContents := fun _ _ => Throw "closed";
     page_textContent := fun _ _ => Throw "closed";
     page_evaluate := fun _ _ => Throw "closed";
     page_hover := fun _ _ => Some "Timeout 30000ms exceeded.";
     page_selectOption := fun _ _ _ => Some "Timeout 30000ms exceeded.";
     page_waitForSelector := fun _ _ _ _ => Some "Timeout 30000ms exceeded.";
     page_getAttribute := fun _ _ _ => Throw "closed";
     keyboard_press := fun _ _ => Some "closed";
     page_goBack := fun _ => Some "closed";
     page_goForward := fun _ => Some "closed";
     page_reload := fun _ => Some "closed";
     page_check := fun _ _ => Some "Timeout 30000ms exceeded.";
     page_uncheck := fun _ _ => Some "Timeout 30000ms exceeded.";
     page_dragAndDrop := fun _ _ _ => Some "Timeout 30000ms exceeded.";
     page_url := fun _ => "about:blank";
     page_title := fun _ => Throw "closed" |}.

Definition sampleRuntime : Runtime :=
  {| env := sampleEnv;
     isUrl := fun s => String.prefix "https://" s;
     library := obligingLibrary |}.

Definition brokenRuntime : Runtime :=
  {| env := sampleEnv;
     isUrl := fun s => String.prefix "https://" s;
     library := brokenLibrary |}.

(** Arguments that satisfy every schema. *)
Definition sampleArgs : JsonArgs :=
  list_to_map
    [ ("url", JsString "https://a.test"); ("name", JsString "s1");
      ("selector", JsString "#go"); ("value", JsString "v");
      ("text", JsString "hello"); ("script", JsString "1");
      ("attribute", JsString "href"); ("key", JsString "Enter");
      ("width", JsNumber "800"); ("height", JsNumber "600");
      ("checked", JsBoolean true);
      ("sourceSelector", JsString "#a"); ("targetSelector", JsString "#b");
      ("framework", JsString "playwright"); ("language", JsString "python");
      ("fileName", JsString "t.py") ].

(** A server that is recording, with an open page. *)
Definition recordingServer : Server :=
  {| world := {| session := {| recordedActions := sampleLog;
                               isRecording := true;
                               recordingName := "s1" |};
                 disk := emptyDisk |};
     manager := {| browser := Some (BrowserObject 1);
                   context := Some (ContextObject 1);
                   page := Some (PageObject 1) |} |}.

(** The browser-driving tools that call [recordAction], and those that
    never do. *)
Definition recordingAutomation : list string :=
  [ "playwright_navigate"; "playwright_screenshot"; "playwright_click";
    "playwright_fill"; "playwright_type"; "playwright_hover";
    "playwright_select"; "playwright_wait_for_selector";
    "playwright_press_key"; "playwright_checkbox" ].

Definition silentTools : list string :=
  [ "playwright_extract_text"; "playwright_evaluate";
    "playwright_get_attribute"; "playwright_go_back";
    "playwright_go_forward"; "playwright_reload";
    "playwright_set_viewport"; "playwright_drag_and_drop";
    "playwright_get_page_info" ].

(** The error response of the [catch] block. *)
Definition errorReply (message : string) : Reply :=
  {| content := [TextContent (Some ("Error: " +:+ message))];
     replyIsError := true |}.

(** A run of tool calls handled one after another, each with the runtime
    and the clock it meets: a call starts when the one before has been
    answered.  Requests that overlap in time are not runs of this kind. *)
Definition runCalls (calls : list (Runtime * Z * string * JsonArgs)) (s : Server) : Server :=
  fold_left (fun s '(R, now, name, args) => (callTool R now name args s).2) calls s.

(** The log of a server. *)
Definition logOf (s : Server) : list RecordedAction :=
  recordedActions (session (world s)).

(** The output directory exists on a disk, as [fs.existsSync] sees it. *)
Definition outputDirPresent (E : Env) (d : FileSystem) : Prop :=
  testsDirOf E ∈ directories d \/ is_Some (files d !! testsDirOf E).

(** An environment in which the file [t.py] of the output directory cannot
    be written. *)
Definition refusingEnv : Env :=
  {| cwd := "/srv";
     pathJoin := fun a b => a +:+ "/" +:+ b;
     refuses := fun p => if String.eqb p "/srv/generated-tests/t.py"
                         then Some "EACCES: permission denied" else None;
     zodMessage := fun fields => "invalid: " +:+ joinAll fields |}.

(** Arguments of a generate request as the whole handler receives them. *)
Definition generateJson (framework : Framework) (language : Language) (fileName : string) : JsonArgs :=
  <[ "framework" := JsString (showFramework framework) ]>
    (<[ "language" := JsString (showLanguage language) ]>
       {[ "fileName" := JsString fileName ]}).

(** The server after start, a navigation, a click and stop, all through the
    request handler. *)
Definition roundTripServer (R : Runtime) (s : Server) (name u sel : string) (t1 t2 : Z) : Server :=
  let s := (callTool R 0 "playwright_record_start" {[ "name" := JsString name ]} s).2 in
  let s := (callTool R t1 "playwright_navigate" {[ "url" := JsString u ]} s).2 in
  let s := (callTool R t2 "playwright_click" {[ "selector" := JsString sel ]} s).2 in
  (callTool R 0 "playwright_record_stop" ∅ s).2.

(** *** The advertised tools *)











(** ** Lemmas on strings and on the loop *)

Lemma append_nil_l (s : string) : "" +:+ s = s.
Proof. reflexivity. Qed.

Lemma append_cons (c : ascii) (s t : string) :
  String c s +:+ t = String c (s +:+ t).
Proof. reflexivity. Qed.

Lemma append_nil_r (s : string) : s +:+ "" = s.
Proof.
  induction s as [|c s IH]; [reflexivity|]. now rewrite append_cons, IH.
Qed.

Lemma append_assoc (a b c : string) : (a +:+ b) +:+ c = a +:+ (b +:+ c).
Proof.
  induction a as [|x a IH]; [reflexivity|]. now rewrite !append_cons, IH.
Qed.

Lemma joinAll_cons (x : string) (l : list string) : joinAll (x :: l) = x +:+ joinAll l.
Proof. reflexivity. Qed.

Lemma joinAll_app (l1 l2 : list string) :
  joinAll (l1 ++ l2) = joinAll l1 +:+ joinAll l2.
Proof.
  induction l1 as [|x l1 IH]; [reflexivity|].
  rewrite <- app_comm_cons, !joinAll_cons, IH. now rewrite append_assoc.
Qed.

Lemma selectCase_is_Some (cases : Cases) (k : string) :
  is_Some (selectCase cases k) <-> k ∈ caseLabels cases.
Proof.
  unfold caseLabels. induction cases as [|[label body] rest IH]; cbn.
  - split; [intros [? ?]; discriminate | intros H; inversion H].
  - destruct (String.eqb_spec k label) as [->|Hne].
    + split; [intros _; left | intros _; eexists; reflexivity].
    + rewrite IH. split; [intros H; now right|].
      intros H. inversion H; subst; [contradiction | assumption].
Qed.

Lemma statementOf_is_Some (cases : Cases) (action : RecordedAction) :
  is_Some (statementOf cases action) <-> hasMapping cases action.
Proof.
  unfold statementOf, hasMapping. rewrite <- selectCase_is_Some.
  rewrite fmap_is_Some. reflexivity.
Qed.

Lemma statementOf_None (cases : Cases) (action : RecordedAction) :
  statementOf cases action = None <-> ~ hasMapping cases action.
Proof.
  rewrite <- statementOf_is_Some, eq_None_not_Some. reflexivity.
Qed.

Lemma switchStep_spec (cases : Cases) (testCode : string) (action : RecordedAction) :
  switchStep cases testCode action =
  testCode +:+ joinAll (statements cases [action]).
Proof.
  unfold switchStep, statements, statementOf. cbn.
  destruct (selectCase cases (type action)) as [body|]; cbn.
  - now rewrite append_nil_r.
  - now rewrite append_nil_r.
Qed.

Lemma statements_app (cases : Cases) (l1 l2 : list RecordedAction) :
  statements cases (l1 ++ l2) = statements cases l1 ++ statements cases l2.
Proof. apply omap_app. Qed.

(** The loop appends to its starting text the emitted statements, in order. *)
Lemma forEachAction_spec (cases : Cases) (actions : list RecordedAction) (testCode : string) :
  forEachAction cases testCode actions =
  testCode +:+ joinAll (statements cases actions).
Proof.
  unfold forEachAction. revert testCode.
  induction actions as [|a l IH]; intros testCode; cbn [fold_left].
  - cbn. now rewrite append_nil_r.
  - rewrite IH, switchStep_spec, append_assoc, <- joinAll_app, <- statements_app.
    reflexivity.
Qed.

Lemma statements_length_le (cases : Cases) (actions : list RecordedAction) :
  length (statements cases actions) <= length actions.
Proof.
  induction actions as [|a l IH]; cbn; [lia|].
  destruct (statementOf cases a); cbn; fold (statements cases l); lia.
Qed.

Lemma statements_length_all (cases : Cases) (actions : list RecordedAction) :
  Forall (hasMapping cases) actions ->
  length (statements cases actions) = length actions.
Proof.
  induction 1 as [|a l Ha _ IH]; [reflexivity|].
  apply statementOf_is_Some in Ha as [stmt Hstmt].
  cbn. rewrite Hstmt. cbn. fold (statements cases l). now rewrite IH.
Qed.

Lemma statements_length_some_unmapped (cases : Cases) (actions : list RecordedAction) :
  Exists (fun a => ~ hasMapping cases a) actions ->
  length (statements cases actions) < length actions.
Proof.
  induction 1 as [a l Ha|a l _ IH].
  - apply statementOf_None in Ha. cbn. rewrite Ha.
    fold (statements cases l). pose proof (statements_length_le cases l). lia.
  - cbn. destruct (statementOf cases a); cbn; fold (statements cases l); lia.
Qed.

(** The emitted statements are the renderings of the mapped actions, taken
    in log order, one per occurrence. *)
Lemma statements_filter (cases : Cases) (actions : list RecordedAction) :
  statements cases actions =
  (fun a => default "" (statementOf cases a)) <$> filter (hasMapping cases) actions.
Proof.
  induction actions as [|a l IH]; [reflexivity|].
  rewrite filter_cons. cbn [statements omap list_omap].
  destruct (decide (hasMapping cases a)) as [Ha|Ha].
  - apply statementOf_is_Some in Ha as [stmt Hstmt].
    rewrite fmap_cons, !Hstmt. cbn. fold (statements cases l). now rewrite IH.
  - apply statementOf_None in Ha. rewrite Ha.
    fold (statements cases l). exact IH.
Qed.

Lemma statements_no_cases (actions : list RecordedAction) :
  statements [] actions = [].
Proof. induction actions as [|a l IH]; [reflexivity | exact IH]. Qed.

Lemma selectCase_In (cases : Cases) (k : string) (body : Template) :
  selectCase cases k = Some body -> (k, body) ∈ cases.
Proof.
  induction cases as [|[label other] rest IH]; cbn; [discriminate|].
  destruct (String.eqb_spec k label) as [->|_].
  - intros [= ->]. left.
  - intros H. right. now apply IH.
Qed.

(** The emitted statements, paired with the mapped actions they render. *)
Lemma statements_Forall2 (cases : Cases) (actions : list RecordedAction) :
  Forall2 (fun action stmt => statementOf cases action = Some stmt)
    (filter (hasMapping cases) actions) (statements cases actions).
Proof.
  induction actions as [|a l IH]; [constructor|].
  rewrite filter_cons. cbn [statements omap list_omap].
  destruct (decide (hasMapping cases a)) as [Ha|Ha].
  - apply statementOf_is_Some in Ha as [stmt Hstmt].
    rewrite Hstmt. constructor; assumption.
  - apply statementOf_None in Ha. rewrite Ha. exact IH.
Qed.

Lemma lineBreaks_append (s t : string) :
  lineBreaks (s +:+ t) = lineBreaks s + lineBreaks t.
Proof.
  induction s as [|c s IH]; [reflexivity|].
  rewrite append_cons. cbn [lineBreaks]. rewrite IH. lia.
Qed.

Lemma lineBreaks_tpl (x : option string) :
  Forall (fun v => lineBreaks v = 0) (omap id [x]) -> lineBreaks (tpl x) = 0.
Proof.
  destruct x as [v|]; [|reflexivity].
  cbn. intros H. now inversion H.
Qed.

Lemma plainPayload_fields (action : RecordedAction) :
  plainPayload action ->
  lineBreaks (tpl (selector action)) = 0 /\ lineBreaks (tpl (value action)) = 0 /\
  lineBreaks (tpl (url action)) = 0 /\ lineBreaks (tpl (key action)) = 0.
Proof.
  unfold plainPayload, captured. intros H.
  repeat split; apply lineBreaks_tpl;
    destruct (selector action), (value action), (url action), (key action);
    cbn in *; repeat match goal with
                     | H : Forall _ (_ :: _) |- _ => inversion H; clear H; subst
                     end; repeat constructor; assumption.
Qed.

(** Every case body of the four [switch]es appends a text that ends with a
    line break, and holds no other when the captured strings hold none. *)
Lemma case_bodies_end_the_line (framework : Framework) (language : Language) :
  Forall (fun c : string * Template =>
            forall action,
              endsLine (c.2 action) /\
              (plainPayload action -> lineBreaks (c.2 action) = 1))
    (casesFor framework language).
Proof.
  destruct framework, language; cbn [casesFor];
    unfold playwrightCases, puppeteerCases, pythonPlaywrightCases,
      pythonSeleniumCases, puppeteerTypeBody, seleniumSendKeysBody;
    repeat constructor; cbn [snd];
    try (unfold endsLine; eexists; rewrite <- !append_assoc; reflexivity);
    rewrite ?lineBreaks_append; cbn [lineBreaks Ascii.eqb Bool.eqb nl];
    intros (Hs & Hv & Hu & Hk)%plainPayload_fields;
    rewrite ?Hs, ?Hv, ?Hu, ?Hk; reflexivity.
Qed.

Lemma statementOf_lineBreaks (framework : Framework) (language : Language) (action : RecordedAction) (stmt : string) :
  statementOf (casesFor framework language) action = Some stmt ->
  endsLine stmt /\ (plainPayload action -> lineBreaks stmt = 1).
Proof.
  unfold statementOf. intros Hstmt.
  destruct (selectCase (casesFor framework language) (type action)) as [body|] eqn:Hsel;
    [|discriminate].
  injection Hstmt as <-. apply selectCase_In in Hsel.
  pose proof (case_bodies_end_the_line framework language) as Hall.
  rewrite Forall_forall in Hall. exact (Hall _ Hsel action).
Qed.

Lemma statements_lineBreaks (framework : Framework) (language : Language) (actions : list RecordedAction) :
  Forall plainPayload actions ->
  lineBreaks (joinAll (statements (casesFor framework language) actions)) =
  length (filter (hasMapping (casesFor framework language)) actions).
Proof.
  induction 1 as [|a l Ha _ IH]; [reflexivity|].
  rewrite filter_cons. cbn [statements omap list_omap].
  destruct (decide (hasMapping (casesFor framework language) a)) as [Hmap|Hmap].
  - apply statementOf_is_Some in Hmap as [stmt Hstmt]. rewrite Hstmt.
    fold (statements (casesFor framework language) l).
    rewrite joinAll_cons, lineBreaks_append, IH.
    apply statementOf_lineBreaks in Hstmt as [_ Hone].
    rewrite (Hone Ha). reflexivity.
  - apply statementOf_None in Hmap. rewrite Hmap. exact IH.
Qed.

(** Every generated text is the prologue, the emitted statements and the
    teardown lines, in this order. *)
Lemma testCodeFor_shape (name : string) (log : list RecordedAction) (framework : Framework) (language : Language) :
  testCodeFor name log framework language =
  prologue name framework language +:+
  joinAll (statements (casesFor framework language) log) +:+
  teardownLines framework language.
Proof.
  destruct framework, language;
    unfold testCodeFor, generatePythonTest, generatePlaywrightTest,
      generatePuppeteerTest, prologue;
    cbn [decide decide_rel Language_eq_dec Framework_eq_dec
         Language_rec Language_rect Framework_rec Framework_rect
         casesFor importLines entryPoint setupLines teardownLines];
    rewrite ?forEachAction_spec, ?append_assoc, ?append_nil_l;
    rewrite ?statements_no_cases; reflexivity.
Qed.

(** ** Lemmas on the handlers *)

Lemma frameworkOfString_show (f : Framework) :
  frameworkOfString (showFramework f) = Some f.
Proof. destruct f; reflexivity. Qed.

Lemma languageOfString_show (l : Language) :
  languageOfString (showLanguage l) = Some l.
Proof. destruct l; reflexivity. Qed.

Lemma checkGenerateArgs_generateArgs (f : Framework) (l : Language) (fileName : string) :
  checkGenerateArgs (generateArgs f l fileName) = inl (f, l, fileName).
Proof.
  unfold checkGenerateArgs, generateArgs, stringField.
  rewrite lookup_insert_eq.
  rewrite lookup_insert_ne, lookup_insert_eq by discriminate.
  rewrite !lookup_insert_ne, lookup_singleton_eq by discriminate.
  cbn. now rewrite frameworkOfString_show, languageOfString_show.
Qed.

Lemma stringField_startArgs (name : string) :
  stringField (startArgs name) "name" = Some name.
Proof. unfold stringField, startArgs. now rewrite lookup_singleton_eq. Qed.

Ltac run_handler :=
  unfold tryCatch, mbind, mret, Handler_bind, Handler_ret, reply, skip,
    getSession, setSession, throw; cbn.

Lemma recordStart_spec (E : Env) (name : string) (w : World) :
  recordStart E (startArgs name) w =
  ({| text := "Recording started: " +:+ name +:+
              ". All subsequent actions will be recorded.";
      isError := false |},
   {| session := {| recordedActions := []; isRecording := true;
                    recordingName := name |};
      disk := disk w |}).
Proof.
  unfold recordStart, playwright_record_start, RecordStartSchema_parse.
  rewrite stringField_startArgs. reflexivity.
Qed.

Lemma recordStop_spec (w : World) :
  recordStop w =
  ({| text := "Recording stopped. " +:+
              showNat (length (recordedActions (session w))) +:+
              " actions recorded. Use playwright_generate_test to create a test script.";
      isError := false |},
   {| session := {| recordedActions := recordedActions (session w);
                    isRecording := false;
                    recordingName := recordingName (session w) |};
      disk := disk w |}).
Proof. reflexivity. Qed.

Lemma generateTest_written (E : Env) (args : Args) (w : World) (f : Framework) (l : Language) (fileName : string) :
  checkGenerateArgs args = inl (f, l, fileName) ->
  recordedActions (session w) <> [] ->
  storageAccepts E w fileName ->
  generateTest E args w =
  ({| text := generatedMessage (filePathOf E fileName) f l
                (length (recordedActions (session w)))
                (testCodeFor (recordingName (session w))
                   (recordedActions (session w)) f l);
      isError := false |},
   {| session := session w;
      disk := diskAfterWrite E (disk w) fileName
                (testCodeFor (recordingName (session w))
                   (recordedActions (session w)) f l) |}).
Proof.
  intros Hargs Hlog [Hdir Hfile].
  unfold generateTest, playwright_generate_test, GenerateTestSchema_parse.
  rewrite Hargs. run_handler.
  case_decide as Hlen; [now apply length_zero_iff_nil in Hlen|].
  unfold existsSync, mkdirSync, writeFileSync, diskAfterWrite.
  fold (testsDirOf E). fold (filePathOf E fileName).
  destruct (bool_decide (testsDirOf E ∈ directories (disk w)) ||
            bool_decide (is_Some (files (disk w) !! testsDirOf E))) eqn:Hpresent;
    cbn.
  - rewrite Hfile. reflexivity.
  - assert (refuses E (testsDirOf E) = None) as ->.
    { apply orb_false_iff in Hpresent as [H1 H2].
      apply bool_decide_eq_false in H1, H2.
      destruct Hdir as [?|[?|?]]; [contradiction..|assumption]. }
    cbn. rewrite Hfile. reflexivity.
Qed.

(** ** Statement count (C1) *)

(** The claim fails as stated: a kind can have a case for the chosen
    framework and still be skipped, because the mapping is that of the
    [switch] reached for the framework and the language together.  The
    Playwright script generator has a case for [check], the Python branch
    for Playwright has none; the Puppeteer script generator has a case for
    [press], the branch Python takes for Puppeteer has none.  The texts for
    these one-action logs are those of the empty log: no statement for one
    action of a mapped kind. *)
Lemma framework_mapping_counterexample :
  Forall (hasMapping playwrightCases) [withTimestamp (Recorded.check "#agree") 2] /\
  testCodeFor "s1" [withTimestamp (Recorded.check "#agree") 2] playwright python =
  testCodeFor "s1" [] playwright python /\
  Forall (hasMapping puppeteerCases) [withTimestamp (Recorded.press "Enter") 2] /\
  testCodeFor "s1" [withTimestamp (Recorded.press "Enter") 2] puppeteer python =
  testCodeFor "s1" [] puppeteer python.
Proof.
  split; [apply (bool_decide_unpack _); vm_compute; exact I|].
  split; [reflexivity|].
  split; [apply (bool_decide_unpack _); vm_compute; exact I|].
  reflexivity.
Qed.

(** C1, amended.  For every log and session name and every pair of
    framework and language other than Selenium with TypeScript or
    JavaScript, the generated text is the prologue, one statement for each
    action whose kind has a case in the [switch] that the pair reaches, and
    the closing lines.  Each of these statements is the body of the case
    selected by the action's kind and ends with a line break.  So the text
    holds as many statements as the log has actions when every kind in the
    log has a case in that [switch], fewer when some kind has none (the
    loop skips it without any report), and never more.  Counted on the text
    itself, for a log whose captured strings hold no line break: the text
    has exactly one line more than the text for the empty log for each
    action with a case, hence as many more as the log has actions when
    every kind has a case, and fewer when some kind has none. *)
Theorem generate_statement_count (name : string) (log : list RecordedAction) (framework : Framework) (language : Language) :
  language = python \/ framework <> selenium ->
  testCodeFor name log framework language =
    prologue name framework language +:+
    joinAll (statements (casesFor framework language) log) +:+
    teardownLines framework language /\
  Forall2 (fun action stmt =>
             statementOf (casesFor framework language) action = Some stmt /\
             endsLine stmt)
    (filter (hasMapping (casesFor framework language)) log)
    (statements (casesFor framework language) log) /\
  length (statements (casesFor framework language) log) <= length log /\
  (Forall (hasMapping (casesFor framework language)) log ->
   length (statements (casesFor framework language) log) = length log) /\
  (Exists (fun a => ~ hasMapping (casesFor framework language) a) log ->
   length (statements (casesFor framework language) log) < length log) /\
  (Forall plainPayload log ->
   lineBreaks (testCodeFor name log framework language) =
     lineBreaks (testCodeFor name [] framework language) +
     length (filter (hasMapping (casesFor framework language)) log) /\
   (Forall (hasMapping (casesFor framework language)) log ->
    lineBreaks (testCodeFor name log framework language) =
    lineBreaks (testCodeFor name [] framework language) + length log) /\
   (Exists (fun a => ~ hasMapping (casesFor framework language) a) log ->
    lineBreaks (testCodeFor name log framework language) <
    lineBreaks (testCodeFor name [] framework language) + length log)).
Proof.
  intros _.
  split; [apply testCodeFor_shape|].
  split.
  { eapply Forall2_impl; [apply statements_Forall2|].
    intros action stmt Hstmt. split; [assumption|].
    now apply statementOf_lineBreaks in Hstmt. }
  split; [apply statements_length_le|].
  split; [apply statements_length_all|].
  split; [apply statements_length_some_unmapped|].
  intros Hplain.
  assert (lineBreaks (testCodeFor name log framework language) =
          lineBreaks (testCodeFor name [] framework language) +
          length (filter (hasMapping (casesFor framework language)) log)) as Hlines.
  { rewrite !testCodeFor_shape, !lineBreaks_append.
    rewrite (statements_lineBreaks _ _ _ Hplain).
    cbn [statements omap list_omap joinAll foldr lineBreaks]. lia. }
  assert (length (filter (hasMapping (casesFor framework language)) log) =
          length (statements (casesFor framework language) log)) as Hcount
    by now rewrite statements_filter, length_fmap.
  rewrite Hlines, Hcount.
  split; [reflexivity|]. split.
  - intros Hall. now rewrite statements_length_all.
  - intros Hsome. apply statements_length_some_unmapped in Hsome. lia.
Qed.

Lemma generate_statement_count_witness :
  lineBreaks (testCodeFor "s1" sampleLog playwright typescript) =
  lineBreaks (testCodeFor "s1" [] playwright typescript) + 3 /\
  lineBreaks (testCodeFor "s1" sampleLog puppeteer typescript) <
  lineBreaks (testCodeFor "s1" [] puppeteer typescript) + 3.
Proof.
  split.
  - destruct (generate_statement_count "s1" sampleLog playwright typescript)
      as (_ & _ & _ & _ & _ & Hlines); [right; discriminate|].
    destruct Hlines as (_ & Hall & _); [repeat constructor|].
    apply Hall. apply (bool_decide_unpack _). vm_compute. exact I.
  - destruct (generate_statement_count "s1" sampleLog puppeteer typescript)
      as (_ & _ & _ & _ & _ & Hlines); [right; discriminate|].
    destruct Hlines as (_ & _ & Hfewer); [repeat constructor|].
    apply Hfewer. apply (bool_decide_unpack _). vm_compute. exact I.
Defined.

(** The spec's fixed three-action input under Puppeteer: the checkbox
    action has no case there and leaves no trace in the text. *)
Example puppeteer_skips_checkbox :
  testCodeFor "s1" sampleLog puppeteer javascript =
  "const puppeteer = require('puppeteer');" +:+ nl +:+ nl +:+
  "(async () => {" +:+ nl +:+
  "  const browser = await puppeteer.launch();" +:+ nl +:+
  "  const page = await browser.newPage();" +:+ nl +:+ nl +:+
  "  await page.goto('https://a.test');" +:+ nl +:+
  "  await page.click('#go');" +:+ nl +:+ nl +:+
  "  await browser.close();" +:+ nl +:+
  "})();" +:+ nl.
Proof. vm_compute. reflexivity. Qed.

(** ** Generation order (C2) *)

Lemma joinAll_statements_cons (cases : Cases) (a : RecordedAction) (l : list RecordedAction) :
  joinAll (statements cases (a :: l)) =
  default "" (statementOf cases a) +:+ joinAll (statements cases l).
Proof.
  unfold statements. cbn. destruct (statementOf cases a); reflexivity.
Qed.

Lemma roundTripWorld_spec (E : Env) (w : World) (name u sel : string) (t1 t2 : Z) :
  roundTripWorld E w name u sel t1 t2 =
  {| session :=
       {| recordedActions := [ withTimestamp (Recorded.navigate u) t1;
                               withTimestamp (Recorded.click sel) t2 ];
          isRecording := false;
          recordingName := name |};
     disk := disk w |}.
Proof.
  unfold roundTripWorld. rewrite recordStart_spec. reflexivity.
Qed.

(** C2. The emitted statements follow the log: the text for a log splits at
    any action into the statements of the actions before it, its own and
    those of the actions after it; the emitted list is the rendering of the
    mapped actions in log order, one per occurrence.  In particular, after
    start, a recorded navigation, a recorded click and stop, the Playwright
    TypeScript text (returned and written to the file) has the [goto] of
    the URL directly before the [click] of the selector. *)
Theorem generation_order_is_recording_order :
  (forall name before a after framework language,
     testCodeFor name (before ++ a :: after) framework language =
     prologue name framework language +:+
     joinAll (statements (casesFor framework language) before) +:+
     default "" (statementOf (casesFor framework language) a) +:+
     joinAll (statements (casesFor framework language) after) +:+
     teardownLines framework language) /\
  (forall framework language log,
     statements (casesFor framework language) log =
     (fun a => default "" (statementOf (casesFor framework language) a)) <$>
       filter (hasMapping (casesFor framework language)) log) /\
  (forall E w name u sel t1 t2 fileName,
     storageAccepts E (roundTripWorld E w name u sel t1 t2) fileName ->
     let code :=
       prologue name playwright typescript +:+
       ("  await page.goto('" +:+ u +:+ "');" +:+ nl) +:+
       ("  await page.click('" +:+ sel +:+ "');" +:+ nl) +:+
       teardownLines playwright typescript in
     generateTest E (generateArgs playwright typescript fileName)
       (roundTripWorld E w name u sel t1 t2) =
     ({| text := generatedMessage (filePathOf E fileName) playwright typescript 2 code;
         isError := false |},
      {| session := session (roundTripWorld E w name u sel t1 t2);
         disk := diskAfterWrite E (disk w) fileName code |})).
Proof.
  split; [|split].
  - intros name before a after framework language.
    rewrite testCodeFor_shape, statements_app, joinAll_app.
    rewrite joinAll_statements_cons, !append_assoc. reflexivity.
  - intros framework language log. apply statements_filter.
  - intros E w name u sel t1 t2 fileName Hstorage code.
    rewrite (generateTest_written E _ _ playwright typescript fileName);
      [| apply checkGenerateArgs_generateArgs
       | rewrite roundTripWorld_spec; discriminate
       | exact Hstorage ].
    rewrite roundTripWorld_spec. cbn [session disk recordedActions recordingName length].
    rewrite testCodeFor_shape. subst code. cbn [casesFor].
    replace (joinAll (statements playwrightCases
               [withTimestamp (Recorded.navigate u) t1;
                withTimestamp (Recorded.click sel) t2]))
      with (("  await page.goto('" +:+ u +:+ "');" +:+ nl) +:+
            ("  await page.click('" +:+ sel +:+ "');" +:+ nl)).
    + rewrite !append_assoc. reflexivity.
    + change (statements playwrightCases _)
        with [ "  await page.goto('" +:+ u +:+ "');" +:+ nl;
               "  await page.click('" +:+ sel +:+ "');" +:+ nl ].
      unfold joinAll. cbn [foldr]. now rewrite append_nil_r.
Qed.

Lemma generation_order_witness :
  storageAccepts sampleEnv
    (roundTripWorld sampleEnv initialWorld "s1" "https://a.test" "#go" 1 2) "out" /\
  files (disk (generateTest sampleEnv (generateArgs playwright typescript "out")
                 (roundTripWorld sampleEnv initialWorld "s1" "https://a.test" "#go" 1 2)).2)
    !! "/srv/generated-tests/out" =
  Some ("import { test, expect } from '@playwright/test';" +:+ nl +:+ nl +:+
        "test('s1', async ({ page }) => {" +:+ nl +:+
        "  await page.goto('https://a.test');" +:+ nl +:+
        "  await page.click('#go');" +:+ nl +:+
        "});" +:+ nl).
Proof.
  assert (storageAccepts sampleEnv
            (roundTripWorld sampleEnv initialWorld "s1" "https://a.test" "#go" 1 2)
            "out") as Hstorage.
  { split; [right; right; reflexivity | reflexivity]. }
  split; [exact Hstorage|].
  destruct generation_order_is_recording_order as (_ & _ & Hround).
  rewrite (Hround sampleEnv initialWorld "s1" "https://a.test" "#go" 1%Z 2%Z "out" Hstorage).
  cbn [snd disk files diskAfterWrite].
  apply lookup_insert_eq.
Defined.

(** ** Generating from an empty log (C4) *)

(** C4. A generate request whose arguments pass validation, made while the
    log is empty, answers the "no actions recorded" message in a response
    that is not flagged as an error, and leaves the world as it was: no
    directory is created and no file is written. *)
Theorem generate_on_empty_log (E : Env) (args : Args) (w : World) (framework : Framework) (language : Language) (fileName : string) :
  checkGenerateArgs args = inl (framework, language, fileName) ->
  recordedActions (session w) = [] ->
  generateTest E args w =
  ({| text := "No actions recorded. Start recording with playwright_record_start first.";
      isError := false |}, w).
Proof.
  intros Hargs Hlog.
  unfold generateTest, playwright_generate_test, GenerateTestSchema_parse.
  rewrite Hargs. run_handler.
  (* the length test of the handler decides before any storage call *)
  rewrite Hlog. reflexivity.
Qed.

Lemma generate_on_empty_log_witness :
  generateTest sampleEnv (generateArgs selenium python "t.py") initialWorld =
  ({| text := noActionsMessage; isError := false |}, initialWorld).
Proof.
  apply (generate_on_empty_log sampleEnv _ initialWorld selenium python "t.py").
  - apply checkGenerateArgs_generateArgs.
  - reflexivity.
Defined.

(** ** Starting a recording (C5) *)

Lemma recordAll_active (calls : list (Z * ActionInput)) (s : Session) :
  isRecording s = true ->
  recordAll calls s =
  {| recordedActions :=
       recordedActions s ++ map (fun call => withTimestamp call.2 call.1) calls;
     isRecording := true;
     recordingName := recordingName s |}.
Proof.
  unfold recordAll. revert s.
  induction calls as [|[now action] calls IH]; intros s Hs; cbn [fold_left map].
  - rewrite app_nil_r. destruct s; cbn in *; now subst.
  - rewrite IH; unfold recordAction; cbn [fst snd]; rewrite Hs; [|reflexivity].
    cbn [recordedActions recordingName]. now rewrite <- app_assoc.
Qed.

(** C5. Whatever the session was, starting a recording under a non-empty
    name makes it active, stores the name and empties the log, and touches
    nothing else.  Hence after a start, one recorded action and a second
    start, the log is empty, the world is the one a single start would
    give, and the log after any further recording consists of the further
    actions alone. *)
Theorem start_resets_the_log (E : Env) (w : World) (name : string) :
  name <> "" ->
  (recordStart E (startArgs name) w).2 =
    {| session := {| recordedActions := []; isRecording := true;
                     recordingName := name |};
       disk := disk w |} /\
  isError (recordStart E (startArgs name) w).1 = false /\
  forall first now action later,
    let between :=
      onSession (recordAction now action) (recordStart E (startArgs first) w).2 in
    let restarted := (recordStart E (startArgs name) between).2 in
    recordedActions (session restarted) = [] /\
    restarted = (recordStart E (startArgs name) w).2 /\
    recordedActions (recordAll later (session restarted)) =
      map (fun call => withTimestamp call.2 call.1) later.
Proof.
  intros _. rewrite recordStart_spec. split; [reflexivity|]. split; [reflexivity|].
  intros first now action later between restarted. subst restarted between.
  rewrite !recordStart_spec. cbn [snd session disk onSession recordedActions].
  split; [reflexivity|]. split; [reflexivity|].
  now rewrite recordAll_active.
Qed.

Lemma start_resets_the_log_witness :
  (recordStart sampleEnv (startArgs "s2")
     (onSession (recordAction 5 (Recorded.click "#old"))
        (recordStart sampleEnv (startArgs "s1") initialWorld).2)).2 =
  {| session := {| recordedActions := []; isRecording := true;
                   recordingName := "s2" |};
     disk := emptyDisk |}.
Proof.
  destruct (start_resets_the_log sampleEnv
              (onSession (recordAction 5 (Recorded.click "#old"))
                 (recordStart sampleEnv (startArgs "s1") initialWorld).2) "s2")
    as [Hstate _]; [discriminate|].
  rewrite Hstate. reflexivity.
Defined.

(** ** Recording an action (C6) *)

(** C6. [recordAction] always returns; while recording is off it returns
    the session it was given, whatever the action; while recording is on it
    appends one entry at the end of the log, which holds every field of the
    action as given and, as its timestamp, the time of the call, and it
    changes neither the flag nor the name nor the earlier entries. *)
Theorem record_appends_only_while_active (now : Z) (action : ActionInput) (s : Session) :
  (isRecording s = false -> recordAction now action s = s) /\
  (isRecording s = true ->
   recordAction now action s =
     {| recordedActions :=
          recordedActions s ++
          [ {| type := in_type action;
               selector := in_selector action;
               value := in_value action;
               url := in_url action;
               script := in_script action;
               key := in_key action;
               attribute := in_attribute action;
               timestamp := now;
               description := in_description action |} ];
        isRecording := true;
        recordingName := recordingName s |}).
Proof.
  unfold recordAction. split; intros Hs; rewrite Hs; reflexivity.
Qed.

Lemma record_appends_only_while_active_witness :
  recordAction 7 (Recorded.click "#go") initialSession = initialSession /\
  recordAction 7 (Recorded.click "#go")
    {| recordedActions := []; isRecording := true; recordingName := "s1" |} =
  {| recordedActions :=
       [ {| type := "click"; selector := Some "#go"; value := None; url := None;
            script := None; key := None; attribute := None; timestamp := 7;
            description := Some "Click #go" |} ];
     isRecording := true; recordingName := "s1" |}.
Proof.
  split.
  - apply (record_appends_only_while_active 7 (Recorded.click "#go") initialSession).
    reflexivity.
  - apply (record_appends_only_while_active 7 (Recorded.click "#go")
             {| recordedActions := []; isRecording := true; recordingName := "s1" |}).
    reflexivity.
Defined.

(** ** Stopping a recording (C7) *)

(** C7. Stopping turns recording off and keeps the log, the name and the
    disk; the response is not an error; stopping a session that is not
    recording changes nothing, and a second stop changes nothing more. *)
Theorem stop_keeps_log_and_name (w : World) :
  isRecording (session (recordStop w).2) = false /\
  recordedActions (session (recordStop w).2) = recordedActions (session w) /\
  recordingName (session (recordStop w).2) = recordingName (session w) /\
  disk (recordStop w).2 = disk w /\
  isError (recordStop w).1 = false /\
  (isRecording (session w) = false -> (recordStop w).2 = w) /\
  recordStop (recordStop w).2 = recordStop w.
Proof.
  rewrite recordStop_spec. cbn [fst snd session disk isRecording recordedActions recordingName isError].
  repeat (split; [reflexivity|]).
  split; [|reflexivity].
  intros Hoff. destruct w as [[log active name] d]. cbn in *. now subst.
Qed.

Lemma stop_keeps_log_and_name_witness :
  (recordStop initialWorld).2 = initialWorld.
Proof.
  apply (stop_keeps_log_and_name initialWorld). reflexivity.
Defined.

(** ** Selenium outside Python (C9) *)

(** C9. With a non-empty log, framework [selenium] and language
    [typescript] or [javascript], no generator is reached: the test code is
    the empty string; when storage accepts the write, the file is written
    with empty content and the response is the ordinary success message
    with the number of recorded actions, not flagged as an error. *)
Theorem selenium_script_is_empty (E : Env) (args : Args) (w : World) (language : Language) (fileName : string) :
  checkGenerateArgs args = inl (selenium, language, fileName) ->
  language = typescript \/ language = javascript ->
  recordedActions (session w) <> [] ->
  storageAccepts E w fileName ->
  testCodeFor (recordingName (session w)) (recordedActions (session w))
    selenium language = "" /\
  generateTest E args w =
    ({| text :=
          "Test generated successfully!" +:+ nl +:+
          "File: " +:+ filePathOf E fileName +:+ nl +:+
          "Framework: selenium" +:+ nl +:+
          "Language: " +:+ showLanguage language +:+ nl +:+
          "Actions: " +:+ showNat (length (recordedActions (session w))) +:+
          nl +:+ nl +:+ "";
        isError := false |},
     {| session := session w;
        disk := diskAfterWrite E (disk w) fileName "" |}) /\
  files (disk (generateTest E args w).2) !! filePathOf E fileName = Some "".
Proof.
  intros Hargs Hlang Hlog Hstorage.
  assert (testCodeFor (recordingName (session w)) (recordedActions (session w))
            selenium language = "") as Hcode.
  { destruct Hlang as [-> | ->]; reflexivity. }
  split; [exact Hcode|].
  rewrite (generateTest_written E args w selenium language fileName Hargs Hlog Hstorage).
  rewrite Hcode. split; [reflexivity|].
  cbn [snd disk files diskAfterWrite]. apply lookup_insert_eq.
Qed.

Lemma selenium_script_is_empty_witness :
  files (disk (generateTest sampleEnv (generateArgs selenium typescript "t.ts")
                 {| session := {| recordedActions := sampleLog;
                                  isRecording := false;
                                  recordingName := "s1" |};
                    disk := emptyDisk |}).2)
    !! filePathOf sampleEnv "t.ts" = Some "".
Proof.
  apply (selenium_script_is_empty sampleEnv _ _ typescript "t.ts").
  - apply checkGenerateArgs_generateArgs.
  - left. reflexivity.
  - discriminate.
  - split; [right; right; reflexivity | reflexivity].
Defined.

(** ** Python under Puppeteer (C10) *)

(** C10. For Python the generator only asks whether the framework is
    Playwright, so a request for Puppeteer produces the text of a request
    for Selenium, for every log and session name; the two requests leave
    the same world behind (the same file with the same content). *)
Theorem python_puppeteer_is_selenium :
  (forall name log,
     generatePythonTest name log puppeteer = generatePythonTest name log selenium) /\
  (forall name log,
     testCodeFor name log puppeteer python = testCodeFor name log selenium python) /\
  (forall E w fileName,
     (generateTest E (generateArgs puppeteer python fileName) w).2 =
     (generateTest E (generateArgs selenium python fileName) w).2).
Proof.
  split; [reflexivity|]. split; [reflexivity|].
  intros E w fileName.
  unfold generateTest, playwright_generate_test, GenerateTestSchema_parse.
  rewrite !checkGenerateArgs_generateArgs. run_handler.
  case_decide; [reflexivity|].
  unfold existsSync, mkdirSync, writeFileSync.
  destruct (bool_decide _ || bool_decide _); cbn.
  - destruct (refuses E _); reflexivity.
  - destruct (refuses E (pathJoin E (cwd E) "generated-tests")); cbn; [reflexivity|].
    destruct (refuses E _); reflexivity.
Qed.

(** ** Verbatim interpolation (C8) *)





(** A value holding a quote character comes out unchanged. *)
Example quote_is_not_escaped :
  statementOf (casesFor playwright typescript)
    (withTimestamp (Recorded.fill "#q" "it's") 1) =
  Some ("  await page.fill('#q', 'it's');" +:+ nl).
Proof. reflexivity. Qed.


(** ** The parts of the generated text (C3) *)

Lemma prefix_append (needle after : string) :
  String.prefix needle (needle +:+ after) = true.
Proof.
  induction needle as [|c needle IH]; [now destruct after|].
  rewrite append_cons. cbn. destruct (ascii_dec c c); [exact IH | contradiction].
Qed.

Lemma includes_complete (needle haystack : string) :
  occursIn needle haystack -> includes haystack needle = true.
Proof.
  intros (before & after & ->).
  induction before as [|c before IH].
  - rewrite append_nil_l. destruct (needle +:+ after) eqn:Heq;
      cbn [includes]; rewrite <- Heq, prefix_append; reflexivity.
  - rewrite append_cons. cbn [includes]. rewrite IH. apply orb_true_r.
Qed.

Lemma replaceNonAlnum_identifier (s : string) :
  everyChar identifierChar (replaceNonAlnum s) = true.
Proof.
  induction s as [|c s IH]; [reflexivity|].
  cbn [replaceNonAlnum everyChar]. rewrite IH, andb_true_r.
  unfold identifierChar. destruct (isAlnum c) eqn:Hc.
  - now rewrite Hc.
  - apply orb_true_r.
Qed.

Lemma replaceNonAlnum_nonempty (s : string) :
  s <> "" -> orElse (replaceNonAlnum s) "recorded" = replaceNonAlnum s.
Proof. destruct s; [contradiction | reflexivity]. Qed.

(** The claim fails as stated: under Puppeteer the entry point is an
    anonymous function and the session name occurs nowhere in the text;
    under Playwright for TypeScript the text closes the test block and
    holds no browser close; for Python under Puppeteer the text is
    Selenium's and never mentions Puppeteer. *)
Lemma entry_point_and_teardown_counterexample :
  ~ occursIn "s1" (testCodeFor "s1" sampleLog puppeteer typescript) /\
  ~ occursIn "close" (testCodeFor "s1" sampleLog playwright typescript) /\
  ~ occursIn "puppeteer" (testCodeFor "s1" sampleLog puppeteer python).
Proof.
  repeat split; intros H; apply includes_complete in H; vm_compute in H;
    discriminate.
Qed.

(** C3, amended.  Validation accepts each of the nine pairs.  For every log
    and session name and every pair other than Selenium with TypeScript or
    JavaScript, the text is the import lines, the line opening the entry
    point, the set-up lines, the per-action statements and the closing
    lines.  For Python the entry point is [def test_<name>():] with every
    non-alphanumeric character of the name replaced by an underscore
    ([test_recorded] for the empty name), under Playwright's imports and
    [browser.close()] for Playwright and under Selenium's imports and
    [driver.quit()] for every other framework.  For Playwright with
    TypeScript or JavaScript it is [test('<name>', ...] with the name as
    given ([recorded test] for the empty name) and the text ends by closing
    the test block, without a browser close.  For Puppeteer with TypeScript
    or JavaScript it is an anonymous async function that does not depend on
    the session name, and the text ends with [await browser.close()]. *)
Theorem generate_text_parts (name : string) (log : list RecordedAction) :
  (forall framework language fileName,
     checkGenerateArgs (generateArgs framework language fileName) =
     inl (framework, language, fileName)) /\
  (forall framework language,
     language = python \/ framework <> selenium ->
     testCodeFor name log framework language =
     importLines framework language +:+
     entryPoint name framework language +:+
     setupLines framework language +:+
     joinAll (statements (casesFor framework language) log) +:+
     teardownLines framework language) /\
  (forall framework,
     entryPoint name framework python =
       "def test_" +:+ orElse (replaceNonAlnum name) "recorded" +:+ "():" +:+ nl /\
     everyChar identifierChar (orElse (replaceNonAlnum name) "recorded") = true /\
     (name = "" -> orElse (replaceNonAlnum name) "recorded" = "recorded") /\
     (name <> "" -> orElse (replaceNonAlnum name) "recorded" = replaceNonAlnum name) /\
     importLines framework python =
       (if decide (framework = playwright)
        then importLines playwright python else importLines selenium python) /\
     teardownLines framework python =
       (if decide (framework = playwright)
        then nl +:+ "        browser.close()" +:+ nl
        else nl +:+ "    driver.quit()" +:+ nl)) /\
  (forall language,
     language <> python ->
     entryPoint name playwright language =
       "test('" +:+ orElse name "recorded test" +:+ "', async ({ page }) => {" +:+ nl /\
     teardownLines playwright language = "});" +:+ nl) /\
  (forall language other,
     language <> python ->
     entryPoint name puppeteer language = "(async () => {" +:+ nl /\
     entryPoint name puppeteer language = entryPoint other puppeteer language /\
     teardownLines puppeteer language =
       nl +:+ "  await browser.close();" +:+ nl +:+ "})();" +:+ nl).
Proof.
  split; [intros; apply checkGenerateArgs_generateArgs|].
  split.
  { intros framework language _. rewrite testCodeFor_shape.
    unfold prologue. now rewrite !append_assoc. }
  split.
  { intros framework. split; [now destruct framework|].
    split.
    { destruct name as [|c rest]; [reflexivity|].
      rewrite replaceNonAlnum_nonempty by discriminate.
      apply replaceNonAlnum_identifier. }
    split; [now intros ->|]. split; [apply replaceNonAlnum_nonempty|].
    split; now destruct framework. }
  split.
  - intros language Hlang. destruct language; [split; reflexivity..|contradiction].
  - intros language other Hlang.
    destruct language; [repeat split; reflexivity..|contradiction].
Qed.

Lemma generate_text_parts_witness :
  testCodeFor "my test" sampleLog selenium python =
  importLines selenium python +:+
  ("def test_my_test():" +:+ nl) +:+
  setupLines selenium python +:+
  joinAll (statements (casesFor selenium python) sampleLog) +:+
  teardownLines selenium python.
Proof.
  destruct (generate_text_parts "my test" sampleLog) as (_ & Hshape & _).
  rewrite (Hshape selenium python); [reflexivity|].
  left. reflexivity.
Defined.

(** * Beyond the recording tools: the browser manager and the whole handler *)

(** ** The browser manager *)

Ltac run_tool :=
  unfold mbind, mret, Tool_bind, Tool_ret, getManager, setManager, await,
    awaitDone, raise; cbn.

Lemma ensureBrowser_cases (P : Playwright) (s : Server) :
  match ensureBrowser P s with
  | (Ok b, s') =>
      world s' = world s /\ browser (manager s') = Some b /\
      context (manager s') = context (manager s) /\
      page (manager s') = page (manager s) /\
      (browser (manager s) = None -> chromium_launch P = Ok b) /\
      (is_Some (browser (manager s)) -> s' = s)
  | (Throw message, s') =>
      s' = s /\ browser (manager s) = None /\ chromium_launch P = Throw message
  end.
Proof.
  unfold ensureBrowser. run_tool.
  destruct (browser (manager s)) as [b|] eqn:Hb; cbn.
  - repeat split; try assumption; try reflexivity. discriminate.
  - destruct (chromium_launch P) as [b|message]; cbn.
    + repeat split; try reflexivity. intros [? ?]; discriminate.
    + repeat split; reflexivity.
Qed.

(** Splits on every library outcome and every field a body branches on. *)
Ltac split_outcomes :=
  repeat (cbn in *;
          match goal with
          | |- context [match ?x with _ => _ end] =>
              lazymatch x with
              | context [match _ with _ => _ end] => fail
              | _ => destruct x eqn:?
              end
          end).

Ltac nested_solver :=
  unfold nested in *; cbn in *;
  repeat match goal with
         | H : _ /\ _ |- _ => destruct H
         end;
  repeat split; intros;
  repeat match goal with
         | H : is_Some None |- _ => destruct H as [? H]; discriminate H
         | H : ?x = None, H' : is_Some ?x |- _ =>
             rewrite H in H'; destruct H' as [? H']; discriminate H'
         | H : ?x = None, H' : is_Some ?y -> is_Some ?x |- _ =>
             rewrite H in H'
         | |- is_Some (Some _) => eexists; reflexivity
         end;
  eauto.

Lemma ensurePage_cases (P : Playwright) (s : Server) :
  match ensurePage P s with
  | (Ok p, s') =>
      world s' = world s /\ page (manager s') = Some p /\
      (nested (manager s) ->
       nested (manager s') /\ is_Some (context (manager s')) /\
       is_Some (browser (manager s'))) /\
      (is_Some (page (manager s)) -> s' = s)
  | (Throw message, s') =>
      world s' = world s /\ page (manager s') = None /\
      page (manager s) = None /\
      (nested (manager s) -> nested (manager s'))
  end.
Proof.
  unfold ensurePage, ensureContext, ensureBrowser. run_tool.
  destruct s as [w [b c p]]. split_outcomes;
    repeat split; try reflexivity; try congruence;
    try (intros [? ?]; discriminate); try nested_solver.
Qed.

Arguments ensurePage : simpl never.

(** ** The automation tools *)

(** One step through a handler body: the page is obtained as
    [ensurePage_cases] says, every other branching is split. *)
Ltac step_tool :=
  cbn in *;
  match goal with
  | |- context [ensurePage ?P ?s] =>
      let H := fresh "Hpage" in
      pose proof (ensurePage_cases P s) as H;
      destruct (ensurePage P s) as [[? | ?] ?]
  | |- context [match ?x with _ => _ end] =>
      lazymatch x with
      | context [match _ with _ => _ end] => fail
      | _ => destruct x eqn:?
      end
  end.

Ltac unfold_tool :=
  unfold playwright_navigate, playwright_screenshot, playwright_click,
    playwright_fill, playwright_type, playwright_extract_text,
    playwright_evaluate, playwright_hover, playwright_select,
    playwright_wait_for_selector, playwright_get_attribute,
    playwright_press_key, playwright_go_back, playwright_go_forward,
    playwright_reload, playwright_set_viewport, playwright_checkbox,
    playwright_drag_and_drop, playwright_get_page_info, setViewport,
    validated, replyText, record, recordedInput,
    requiredString, requiredUrl, requiredNumber, requiredBoolean,
    optionalEnum, optionalNumber, optionalBoolean;
  unfold mbind, mret, Tool_bind, Tool_ret, await, awaitDone, raise,
    option_bind, fmap, option_fmap, option_map, mjoin, option_join.

(** What a browser-driving tool does to the server, whatever the library
    answers: the manager stays nested; if the body throws, the recording
    state and the disk are untouched; if it returns, they are as after the
    one [recordAction] call the tool makes, or untouched for a tool that
    makes none. *)
Lemma automation_summary (R : Runtime) (now : Z) (args : JsonArgs) (name : string) (body : Tool Reply) (s : Server) :
  name ∈ automationTools ->
  selectTool (toolCases R now args) name = Some body ->
  (nested (manager s) -> nested (manager (body s).2)) /\
  match (body s).1 with
  | Throw _ => world (body s).2 = world s
  | Ok r =>
      replyIsError r = false /\
      world (body s).2 = afterRecording now (recordedInput name args) (world s) /\
      (recordedInput name args = None -> name ∈ silentTools)
  end.
Proof.
  intros Hin Hsel. unfold automationTools in Hin.
  repeat (apply elem_of_cons in Hin as [->|Hin]);
    [..|apply elem_of_nil in Hin; contradiction];
    cbn in Hsel; injection Hsel as <-;
    unfold_tool; repeat step_tool;
    repeat match goal with
           | H : _ /\ _ |- _ => destruct H
           end;
    (split; [intros Hn; try (exact Hn); try (apply Hpage; exact Hn); tauto|]);
    cbn; repeat split; try congruence; try discriminate;
    intros _; apply (bool_decide_unpack _); vm_compute; exact I.
Qed.

(** ** The dispatch *)

Lemma selectTool_is_Some {A} (cases : list (string * A)) (name : string) :
  is_Some (selectTool cases name) <-> name ∈ cases.*1.
Proof.
  induction cases as [|[label body] rest IH]; cbn.
  - split; [intros [? ?]; discriminate | intros H; inversion H].
  - destruct (String.eqb_spec name label) as [->|Hne].
    + split; [intros _; left | intros _; eexists; reflexivity].
    + rewrite IH. split; [intros H; now right|].
      intros H. inversion H; subst; [contradiction | assumption].
Qed.

Lemma toolCases_names (R : Runtime) (now : Z) (args : JsonArgs) :
  (toolCases R now args).*1 = toolNames.
Proof. reflexivity. Qed.

Lemma callTool_selected (R : Runtime) (now : Z) (name : string) (args : JsonArgs) (s : Server) (body : Tool Reply) :
  selectTool (toolCases R now args) name = Some body ->
  callTool R now name args s =
  match body s with
  | (Ok r, s') => (r, s')
  | (Throw message, s') => (errorReply message, s')
  end.
Proof. intros Hsel. unfold callTool. now rewrite Hsel. Qed.

Lemma callTool_unknown (R : Runtime) (now : Z) (name : string) (args : JsonArgs) (s : Server) :
  name ∉ toolNames ->
  callTool R now name args s = (errorReply ("Unknown tool: " +:+ name), s).
Proof.
  intros Hname. unfold callTool.
  destruct (selectTool (toolCases R now args) name) as [body|] eqn:Hsel;
    [|reflexivity].
  exfalso. apply Hname. rewrite <- (toolCases_names R now args).
  apply selectTool_is_Some. now rewrite Hsel.
Qed.

(** The three recording tools inside the whole handler are the handlers of
    the recording state, run on the string view of the arguments; the
    browser manager is not involved. *)
Lemma callTool_record_start (R : Runtime) (now : Z) (args : JsonArgs) (s : Server) :
  callTool R now "playwright_record_start" args s =
  (ofResponse (recordStart (env R) (toArgValue <$> args) (world s)).1,
   {| world := (recordStart (env R) (toArgValue <$> args) (world s)).2;
      manager := manager s |}).
Proof.
  rewrite (callTool_selected R now _ args s
             (recordingTool (playwright_record_start (env R) (toArgValue <$> args))))
    by reflexivity.
  unfold recordStart, tryCatch, recordingTool, liftHandler,
    mbind, mret, Tool_bind, Tool_ret.
  destruct (playwright_record_start (env R) (toArgValue <$> args) (world s))
    as [[r|message] w']; reflexivity.
Qed.

Lemma callTool_record_stop (R : Runtime) (now : Z) (args : JsonArgs) (s : Server) :
  callTool R now "playwright_record_stop" args s =
  (ofResponse (recordStop (world s)).1,
   {| world := (recordStop (world s)).2; manager := manager s |}).
Proof. reflexivity. Qed.

Lemma callTool_generate_test (R : Runtime) (now : Z) (args : JsonArgs) (s : Server) :
  callTool R now "playwright_generate_test" args s =
  (ofResponse (generateTest (env R) (toArgValue <$> args) (world s)).1,
   {| world := (generateTest (env R) (toArgValue <$> args) (world s)).2;
      manager := manager s |}).
Proof.
  rewrite (callTool_selected R now _ args s
             (recordingTool (playwright_generate_test (env R) (toArgValue <$> args))))
    by reflexivity.
  unfold generateTest, tryCatch, recordingTool, liftHandler,
    mbind, mret, Tool_bind, Tool_ret.
  destruct (playwright_generate_test (env R) (toArgValue <$> args) (world s))
    as [[r|message] w']; reflexivity.
Qed.


Lemma closeBrowser_cases (P : Playwright) (s : Server) :
  world (closeBrowser P s).2 = world s /\
  (nested (manager s) -> nested (manager (closeBrowser P s).2)) /\
  (forall p, page (manager s) = Some p ->
     page (manager (closeBrowser P s).2) = None -> page_close P p = None) /\
  (forall c, context (manager s) = Some c ->
     context (manager (closeBrowser P s).2) = None -> context_close P c = None) /\
  (forall b, browser (manager s) = Some b ->
     browser (manager (closeBrowser P s).2) = None -> browser_close P b = None) /\
  match (closeBrowser P s).1 with
  | Ok _ => manager (closeBrowser P s).2 = newBrowserManager
  | Throw _ => manager (closeBrowser P s).2 <> newBrowserManager
  end.
Proof.
  unfold closeBrowser, closePage, closeContext, closeBrowserObject. run_tool.
  destruct s as [w [b c p]].
  split_outcomes; repeat split; intros; simplify_eq; try nested_solver;
    try discriminate; try congruence.
Qed.

Lemma callTool_close (R : Runtime) (now : Z) (args : JsonArgs) (s : Server) :
  callTool R now "playwright_close" args s =
  match closeBrowser (library R) s with
  | (Ok _, s') =>
      ({| content := [TextContent (Some "Browser closed successfully")];
          replyIsError := false |},
       {| world := {| session := {| recordedActions := [];
                                    isRecording := false;
                                    recordingName := recordingName (session (world s')) |};
                      disk := disk (world s') |};
          manager := manager s' |})
  | (Throw message, s') => (errorReply message, s')
  end.
Proof.
  rewrite (callTool_selected R now _ args s (playwright_close R)) by reflexivity.
  unfold playwright_close, mbind, mret, Tool_bind, Tool_ret.
  destruct (closeBrowser (library R) s) as [[[]|message] s']; reflexivity.
Qed.

Lemma recordStart_cases (E : Env) (args : Args) (w : World) :
  match stringField args "name" with
  | Some name =>
      recordStart E args w =
      ({| text := "Recording started: " +:+ name +:+
                  ". All subsequent actions will be recorded.";
          isError := false |},
       {| session := {| recordedActions := []; isRecording := true;
                        recordingName := name |};
          disk := disk w |})
  | None =>
      recordStart E args w =
      ({| text := "Error: " +:+ zodMessage E ["name"]; isError := true |}, w)
  end.
Proof.
  unfold recordStart, playwright_record_start, RecordStartSchema_parse.
  destruct (stringField args "name"); reflexivity.
Qed.

Lemma generateTest_session (E : Env) (args : Args) (w : World) :
  session (generateTest E args w).2 = session w.
Proof.
  unfold generateTest, tryCatch, playwright_generate_test, GenerateTestSchema_parse.
  destruct (checkGenerateArgs args) as [[[f l] n]|issues]; run_handler;
    [|reflexivity].
  case_decide; [reflexivity|].
  unfold existsSync, mkdirSync, writeFileSync. split_outcomes; reflexivity.
Qed.

Lemma callTool_automation (R : Runtime) (now : Z) (name : string) (args : JsonArgs) (s : Server) :
  name ∈ automationTools ->
  (nested (manager s) -> nested (manager (callTool R now name args s).2)) /\
  (if replyIsError (callTool R now name args s).1
   then world (callTool R now name args s).2 = world s
   else world (callTool R now name args s).2 =
          afterRecording now (recordedInput name args) (world s) /\
        (recordedInput name args = None -> name ∈ silentTools)).
Proof.
  intros Hin.
  assert (is_Some (selectTool (toolCases R now args) name)) as [body Hsel].
  { apply selectTool_is_Some. rewrite toolCases_names.
    change toolNames with (automationTools ++
      ["playwright_record_start"; "playwright_record_stop";
       "playwright_generate_test"; "playwright_close"]).
    apply elem_of_app. now left. }
  rewrite (callTool_selected R now name args s body Hsel).
  pose proof (automation_summary R now args name body s Hin Hsel) as [Hnested Hworld].
  destruct (body s) as [[r|message] s']; cbn [fst snd] in *.
  - destruct Hworld as (-> & Hw & Hsilent).
    split; [assumption|]. split; assumption.
  - split; assumption.
Qed.

Lemma name_cases (name : string) :
  name ∉ toolNames \/ name ∈ automationTools \/
  name = "playwright_record_start" \/ name = "playwright_record_stop" \/
  name = "playwright_generate_test" \/ name = "playwright_close".
Proof.
  destruct (decide (name ∈ toolNames)) as [Hin|Hout]; [|now left]. right.
  change toolNames with (automationTools ++
    ["playwright_record_start"; "playwright_record_stop";
     "playwright_generate_test"; "playwright_close"]) in Hin.
  apply elem_of_app in Hin as [Hin|Hin]; [now left|]. right.
  repeat (apply elem_of_cons in Hin as [->|Hin]); auto.
  apply elem_of_nil in Hin. contradiction.
Qed.

(** ** Properties of the browser manager *)

(** X1. From a nested manager, [ensurePage] leaves the recording state and
    the disk alone and keeps the manager nested; when it returns a page,
    that page is stored and a context and a browser are held; when it
    throws, no page was held before and none is held after. *)
Theorem ensurePage_gives_a_stored_page (P : Playwright) (s : Server) :
  nested (manager s) ->
  world (ensurePage P s).2 = world s /\
  nested (manager (ensurePage P s).2) /\
  (forall p, (ensurePage P s).1 = Ok p ->
     page (manager (ensurePage P s).2) = Some p /\
     is_Some (context (manager (ensurePage P s).2)) /\
     is_Some (browser (manager (ensurePage P s).2))) /\
  (forall message, (ensurePage P s).1 = Throw message ->
     page (manager s) = None /\ page (manager (ensurePage P s).2) = None).
Proof.
  intros Hnested. pose proof (ensurePage_cases P s) as Hcases.
  destruct (ensurePage P s) as [[p|message] s']; cbn.
  - destruct Hcases as (Hw & Hp & Hn & _).
    destruct (Hn Hnested) as (Hn' & Hc & Hb).
    split; [exact Hw|]. split; [exact Hn'|].
    split; [intros q [= <-]; auto | intros message [=]].
  - destruct Hcases as (Hw & Hp & Hp0 & Hn).
    split; [exact Hw|]. split; [exact (Hn Hnested)|].
    split; [intros q [=] | intros ? _; auto].
Qed.

Lemma ensurePage_gives_a_stored_page_witness :
  page (manager (ensurePage obligingLibrary initialServer).2) = Some (PageObject 1).
Proof.
  destruct (ensurePage_gives_a_stored_page obligingLibrary initialServer)
    as (_ & _ & Hok & _).
  - split; intros [? H]; discriminate H.
  - apply (Hok (PageObject 1)). reflexivity.
Defined.

(** X2. Once [ensurePage] has returned a page, every later call returns the
    same page and changes nothing, whatever the library would answer then:
    no second browser, context or page is opened. *)
Theorem ensurePage_reuses_the_page (P P' : Playwright) (s s' : Server) (p : Page) :
  ensurePage P s = (Ok p, s') ->
  ensurePage P' s' = (Ok p, s').
Proof.
  intros Hfirst. pose proof (ensurePage_cases P s) as Hcases.
  rewrite Hfirst in Hcases. destruct Hcases as (_ & Hp & _).
  unfold ensurePage. run_tool. now rewrite Hp.
Qed.

Lemma ensurePage_reuses_the_page_witness :
  ensurePage brokenLibrary (ensurePage obligingLibrary initialServer).2 =
  (Ok (PageObject 1), (ensurePage obligingLibrary initialServer).2).
Proof.
  apply (ensurePage_reuses_the_page obligingLibrary brokenLibrary initialServer).
  reflexivity.
Defined.

(** X3. [closeBrowser] leaves the recording state and the disk alone and
    keeps the manager nested.  It forgets a page, context or browser only
    after that object's [close] returned; when it returns, nothing is held
    any more; when it throws, something is still held. *)
Theorem closeBrowser_forgets_only_what_it_closed (P : Playwright) (s : Server) :
  world (closeBrowser P s).2 = world s /\
  (nested (manager s) -> nested (manager (closeBrowser P s).2)) /\
  (forall p, page (manager s) = Some p ->
     page (manager (closeBrowser P s).2) = None -> page_close P p = None) /\
  (forall c, context (manager s) = Some c ->
     context (manager (closeBrowser P s).2) = None -> context_close P c = None) /\
  (forall b, browser (manager s) = Some b ->
     browser (manager (closeBrowser P s).2) = None -> browser_close P b = None) /\
  (forall done, (closeBrowser P s).1 = Ok done ->
     manager (closeBrowser P s).2 = newBrowserManager) /\
  (forall message, (closeBrowser P s).1 = Throw message ->
     manager (closeBrowser P s).2 <> newBrowserManager).
Proof.
  pose proof (closeBrowser_cases P s) as (Hw & Hn & Hp & Hc & Hb & Hres).
  repeat (split; [assumption|]).
  destruct ((closeBrowser P s).1) as [[]|message]; split; intros; simplify_eq;
    assumption.
Qed.

Lemma closeBrowser_forgets_only_what_it_closed_witness :
  manager (closeBrowser obligingLibrary recordingServer).2 = newBrowserManager /\
  manager (closeBrowser brokenLibrary recordingServer).2 = manager recordingServer.
Proof.
  split.
  - apply (closeBrowser_forgets_only_what_it_closed obligingLibrary recordingServer)
      with (done := tt).
    reflexivity.
  - reflexivity.
Defined.

(** ** Properties of the whole handler *)

(** X4. [playwright_close] resets the recording only after the browser was
    shut down: when it answers an error, the recording state and the disk
    are untouched and something is still held by the manager; when it
    succeeds, recording is off, the log is empty, the session name and the
    disk are kept and the manager is empty.  With nothing open it always
    succeeds, so it then discards the log. *)
Theorem close_resets_recording_after_shutdown (R : Runtime) (now : Z) (args : JsonArgs) (s : Server) :
  (replyIsError (callTool R now "playwright_close" args s).1 = true ->
   world (callTool R now "playwright_close" args s).2 = world s /\
   manager (callTool R now "playwright_close" args s).2 <> newBrowserManager) /\
  (replyIsError (callTool R now "playwright_close" args s).1 = false ->
   (callTool R now "playwright_close" args s).2 =
   {| world := {| session := {| recordedActions := [];
                                isRecording := false;
                                recordingName := recordingName (session (world s)) |};
                  disk := disk (world s) |};
      manager := newBrowserManager |}) /\
  (manager s = newBrowserManager ->
   replyIsError (callTool R now "playwright_close" args s).1 = false).
Proof.
  rewrite callTool_close.
  pose proof (closeBrowser_cases (library R) s) as (Hw & _ & _ & _ & _ & Hres).
  destruct (closeBrowser (library R) s) as [[[]|message] s'] eqn:Hclose;
    cbn [fst snd] in *.
  - split; [discriminate|]. split.
    + intros _. now rewrite Hw, Hres.
    + reflexivity.
  - split; [intros _; now split|]. split; [discriminate|].
    intros Hfresh. exfalso. revert Hclose.
    destruct s as [w m]. cbn in Hfresh. subst m. cbv. discriminate.
Qed.

Lemma close_resets_recording_after_shutdown_witness :
  recordedActions (session (world
    (callTool sampleRuntime 0 "playwright_close" ∅ recordingServer).2)) = [] /\
  world (callTool brokenRuntime 0 "playwright_close" ∅ recordingServer).2 =
    world recordingServer.
Proof.
  split.
  - destruct (close_resets_recording_after_shutdown sampleRuntime 0 ∅ recordingServer)
      as (_ & Hok & _).
    rewrite Hok; reflexivity.
  - apply (close_resets_recording_after_shutdown brokenRuntime 0 ∅ recordingServer).
    reflexivity.
Defined.

(** X5. The tools the server lists are exactly the names its [switch]
    handles: there are twenty-three, all different; a call under any other
    name is answered [Error: Unknown tool: <name>] and changes nothing;
    and each listed tool does run, as it succeeds on a sample call. *)
Theorem listed_tools_are_the_handled_ones (R : Runtime) (now : Z) (args : JsonArgs) :
  (forall name,
     name ∈ toolNames <-> is_Some (selectTool (toolCases R now args) name)) /\
  (forall name s,
     name ∉ toolNames ->
     callTool R now name args s =
     ({| content := [TextContent (Some ("Error: Unknown tool: " +:+ name))];
         replyIsError := true |}, s)) /\
  NoDup toolNames /\ length toolNames = 23 /\
  (forall name,
     name ∈ toolNames ->
     replyIsError (callTool sampleRuntime 0 name sampleArgs recordingServer).1 = false).
Proof.
  split.
  { intros name. now rewrite selectTool_is_Some, toolCases_names. }
  split.
  { intros name s Hname. now rewrite callTool_unknown. }
  split; [apply (bool_decide_unpack _); vm_compute; exact I|].
  split; [reflexivity|].
  intros name Hin. unfold toolNames in Hin.
  repeat (apply elem_of_cons in Hin as [->|Hin]);
    [..|apply elem_of_nil in Hin; contradiction]; vm_compute; reflexivity.
Qed.

Lemma listed_tools_are_the_handled_ones_witness :
  callTool brokenRuntime 0 "playwright_resize" sampleArgs recordingServer =
  ({| content := [TextContent (Some "Error: Unknown tool: playwright_resize")];
      replyIsError := true |}, recordingServer).
Proof.
  apply (listed_tools_are_the_handled_ones brokenRuntime 0 sampleArgs).
  apply (bool_decide_unpack _). vm_compute. exact I.
Defined.

Lemma replyIsError_ofResponse (r : Response) :
  replyIsError (ofResponse r) = isError r.
Proof. reflexivity. Qed.

(** X6. A call that is answered with an error records nothing and does not
    touch the recording state at all, whichever tool it was and wherever it
    failed (validation, the browser, storage). *)
Theorem failed_call_keeps_the_session (R : Runtime) (now : Z) (name : string) (args : JsonArgs) (s : Server) :
  replyIsError (callTool R now name args s).1 = true ->
  session (world (callTool R now name args s).2) = session (world s).
Proof.
  intros Herr.
  destruct (name_cases name) as [Hname|[Hname|[->|[->|[->| ->]]]]].
  - now rewrite callTool_unknown.
  - destruct (callTool_automation R now name args s Hname) as [_ Hworld].
    rewrite Herr in Hworld. now rewrite Hworld.
  - rewrite callTool_record_start in *. cbn [fst snd world] in *.
    rewrite replyIsError_ofResponse in Herr.
    pose proof (recordStart_cases (env R) (toArgValue <$> args) (world s)) as Hstart.
    destruct (stringField (toArgValue <$> args) "name"); rewrite Hstart in *;
      [discriminate | reflexivity].
  - rewrite callTool_record_stop in Herr. discriminate.
  - rewrite callTool_generate_test. apply generateTest_session.
  - rewrite callTool_close in *.
    pose proof (closeBrowser_cases (library R) s) as (Hw & _).
    destruct (closeBrowser (library R) s) as [[[]|message] s'];
      cbn [fst snd] in *; [discriminate | now rewrite Hw].
Qed.

Lemma failed_call_keeps_the_session_witness :
  session (world (callTool brokenRuntime 9 "playwright_click" sampleArgs recordingServer).2)
  = session (world recordingServer).
Proof.
  apply failed_call_keeps_the_session. reflexivity.
Defined.

Lemma recordedInput_recordable (name : string) (args : JsonArgs) (input : ActionInput) :
  recordedInput name args = Some input -> recordable input.
Proof.
  unfold recordedInput. cbn [selectTool].
  repeat match goal with
         | |- context [String.eqb name ?label] => destruct (String.eqb name label)
         end;
    cbn; unfold option_bind, fmap, option_fmap, option_map; cbn;
    repeat match goal with
           | |- context [requiredString args ?f] => destruct (requiredString args f)
           | |- context [requiredBoolean args ?f] =>
               destruct (requiredBoolean args f) as [[]|]
           end;
    cbn; intros H; simplify_eq; constructor.
Qed.

(** X7. When one of the ten tools that record answers without error, the
    recording state is what one [recordAction] call makes of it, for the
    action built from the call's own arguments at the time of the call;
    the disk is untouched.  So the log grows by that one action when
    recording is on and not at all when it is off. *)
Theorem successful_call_records_its_arguments (R : Runtime) (now : Z) (name : string) (args : JsonArgs) (s : Server) :
  name ∈ recordingAutomation ->
  replyIsError (callTool R now name args s).1 = false ->
  exists input,
    recordedInput name args = Some input /\
    recordable input /\
    world (callTool R now name args s).2 =
      {| session := recordAction now input (session (world s));
         disk := disk (world s) |}.
Proof.
  intros Hin Hok.
  assert (name ∈ automationTools /\ name ∉ silentTools) as [Hauto Hloud].
  { unfold recordingAutomation in Hin.
    repeat (apply elem_of_cons in Hin as [->|Hin]);
      [..|apply elem_of_nil in Hin; contradiction];
      (split; [apply (bool_decide_unpack _); vm_compute; exact I
              | intros H; apply (bool_decide_pack _) in H; vm_compute in H; exact H]). }
  destruct (callTool_automation R now name args s Hauto) as [_ Hworld].
  rewrite Hok in Hworld. destruct Hworld as [Hworld Hsilent].
  destruct (recordedInput name args) as [input|] eqn:Hinput.
  - exists input. split; [reflexivity|].
    split; [now apply (recordedInput_recordable name args)|]. exact Hworld.
  - exfalso. now apply Hloud, Hsilent.
Qed.

Lemma successful_call_records_its_arguments_witness :
  exists input,
    recordedInput "playwright_fill" sampleArgs = Some input /\
    recordable input /\
    world (callTool sampleRuntime 9 "playwright_fill" sampleArgs recordingServer).2 =
      {| session := recordAction 9 input (session (world recordingServer));
         disk := disk (world recordingServer) |}.
Proof.
  apply successful_call_records_its_arguments.
  - apply (bool_decide_unpack _). vm_compute. exact I.
  - reflexivity.
Defined.

(** X8. The nine browser-driving tools without a [recordAction] call
    (text extraction, evaluation, attribute reads, history moves, reload,
    viewport, drag and drop, page info) never change the recording state
    or the disk, recording or not, failing or not. *)
Theorem silent_tools_leave_the_world (R : Runtime) (now : Z) (name : string) (args : JsonArgs) (s : Server) :
  name ∈ silentTools ->
  world (callTool R now name args s).2 = world s.
Proof.
  intros Hin.
  assert (name ∈ automationTools /\ recordedInput name args = None) as [Hauto Hnone].
  { unfold silentTools in Hin.
    repeat (apply elem_of_cons in Hin as [->|Hin]);
      [..|apply elem_of_nil in Hin; contradiction];
      (split; [apply (bool_decide_unpack _); vm_compute; exact I | reflexivity]). }
  destruct (callTool_automation R now name args s Hauto) as [_ Hworld].
  destruct (replyIsError (callTool R now name args s).1); [exact Hworld|].
  destruct Hworld as [Hworld _]. now rewrite Hworld, Hnone.
Qed.

Lemma silent_tools_leave_the_world_witness :
  world (callTool sampleRuntime 9 "playwright_drag_and_drop" sampleArgs recordingServer).2
  = world recordingServer.
Proof.
  apply silent_tools_leave_the_world.
  apply (bool_decide_unpack _). vm_compute. exact I.
Defined.

(** Every way a call can change the recording state and the disk. *)
Lemma callTool_world (R : Runtime) (now : Z) (name : string) (args : JsonArgs) (s : Server) :
  world (callTool R now name args s).2 = world s \/
  (name ∈ automationTools /\ exists input,
     recordable input /\
     world (callTool R now name args s).2 =
       {| session := recordAction now input (session (world s));
          disk := disk (world s) |}) \/
  (name = "playwright_record_start" /\ exists started,
     world (callTool R now name args s).2 =
       {| session := {| recordedActions := []; isRecording := true;
                        recordingName := started |};
          disk := disk (world s) |}) \/
  (name = "playwright_record_stop" /\
     world (callTool R now name args s).2 =
       {| session := {| recordedActions := recordedActions (session (world s));
                        isRecording := false;
                        recordingName := recordingName (session (world s)) |};
          disk := disk (world s) |}) \/
  (name = "playwright_generate_test" /\
     session (world (callTool R now name args s).2) = session (world s)) \/
  (name = "playwright_close" /\
     world (callTool R now name args s).2 =
       {| session := {| recordedActions := []; isRecording := false;
                        recordingName := recordingName (session (world s)) |};
          disk := disk (world s) |}).
Proof.
  destruct (name_cases name) as [Hname|[Hname|[->|[->|[->| ->]]]]].
  - left. now rewrite callTool_unknown.
  - destruct (callTool_automation R now name args s Hname) as [_ Hworld].
    destruct (replyIsError (callTool R now name args s).1); [now left|].
    destruct Hworld as [Hworld _].
    destruct (recordedInput name args) as [input|] eqn:Hinput; [|now left].
    right. left. split; [assumption|]. exists input.
    split; [now apply (recordedInput_recordable name args)|]. exact Hworld.
  - rewrite callTool_record_start. cbn [snd world].
    pose proof (recordStart_cases (env R) (toArgValue <$> args) (world s)) as Hstart.
    destruct (stringField (toArgValue <$> args) "name") as [started|];
      rewrite Hstart; [|now left].
    right. right. left. split; [reflexivity|]. now exists started.
  - do 3 right. left. split; reflexivity.
  - do 4 right. left. split; [reflexivity|].
    rewrite callTool_generate_test. apply generateTest_session.
  - rewrite callTool_close.
    pose proof (closeBrowser_cases (library R) s) as (Hw & _).
    destruct (closeBrowser (library R) s) as [[[]|message] s'];
      cbn [fst snd world] in *; [|now left].
    do 5 right. split; [reflexivity|]. now rewrite Hw.
Qed.

Lemma generateTest_disk_only (R : Runtime) (now : Z) (name : string) (args : JsonArgs) (s : Server) :
  name <> "playwright_generate_test" ->
  disk (world (callTool R now name args s).2) = disk (world s).
Proof.
  intros Hname.
  destruct (callTool_world R now name args s)
    as [Hw|[(_ & input & _ & Hw)|[(_ & started & Hw)|[(_ & Hw)|[(Hgen & _)|(_ & Hw)]]]]];
    try (now rewrite Hw). contradiction.
Qed.

(** X9. Who may change what.  Only [playwright_generate_test] changes the
    disk; only [playwright_record_start] changes the session name or turns
    recording on; only [playwright_record_start] and [playwright_close]
    remove anything from the log (under every other name the old log is a
    prefix of the new one); and the three recording tools never touch the
    browser manager. *)
Theorem who_changes_what (R : Runtime) (now : Z) (name : string) (args : JsonArgs) (s : Server) :
  (name <> "playwright_generate_test" ->
   disk (world (callTool R now name args s).2) = disk (world s)) /\
  (name <> "playwright_record_start" ->
   recordingName (session (world (callTool R now name args s).2)) =
     recordingName (session (world s)) /\
   (isRecording (session (world (callTool R now name args s).2)) = true ->
    isRecording (session (world s)) = true)) /\
  (name <> "playwright_record_start" -> name <> "playwright_close" ->
   logOf s `prefix_of` logOf (callTool R now name args s).2) /\
  (name ∈ ["playwright_record_start"; "playwright_record_stop";
           "playwright_generate_test"] ->
   manager (callTool R now name args s).2 = manager s).
Proof.
  split; [apply generateTest_disk_only|].
  split; [|split].
  - intros Hname.
    destruct (callTool_world R now name args s)
      as [Hw|[(_ & input & _ & Hw)|[(Hstart & _)|[(_ & Hw)|[(_ & Hw)|(_ & Hw)]]]]];
      try contradiction; rewrite Hw; try (split; [reflexivity | tauto]).
    + cbn [session]. unfold recordAction.
      destruct (isRecording (session (world s))) eqn:Hrec; cbn; auto.
      rewrite Hrec. split; [reflexivity | discriminate].
    + cbn. split; [reflexivity | discriminate].
    + cbn. split; [reflexivity | discriminate].
  - intros Hstart Hclose. unfold logOf.
    destruct (callTool_world R now name args s)
      as [Hw|[(_ & input & _ & Hw)|[(Hname & _)|[(_ & Hw)|[(_ & Hw)|(Hname & _)]]]]];
      try contradiction; rewrite Hw; try reflexivity.
    cbn [session]. unfold recordAction.
    destruct (isRecording (session (world s))); cbn;
      [apply prefix_app_r |]; reflexivity.
  - intros Hin. repeat (apply elem_of_cons in Hin as [->|Hin]);
      [rewrite callTool_record_start | rewrite callTool_record_stop
      | rewrite callTool_generate_test | apply elem_of_nil in Hin; contradiction];
      reflexivity.
Qed.

Lemma who_changes_what_witness :
  disk (world (callTool sampleRuntime 9 "playwright_navigate" sampleArgs recordingServer).2)
    = disk (world recordingServer) /\
  logOf recordingServer `prefix_of`
    logOf (callTool sampleRuntime 9 "playwright_navigate" sampleArgs recordingServer).2.
Proof.
  destruct (who_changes_what sampleRuntime 9 "playwright_navigate" sampleArgs recordingServer)
    as (Hdisk & _ & Hlog & _).
  split; [apply Hdisk | apply Hlog]; discriminate.
Defined.

Lemma callTool_nested (R : Runtime) (now : Z) (name : string) (args : JsonArgs) (s : Server) :
  nested (manager s) -> nested (manager (callTool R now name args s).2).
Proof.
  intros Hnested.
  destruct (name_cases name) as [Hname|[Hname|[->|[->|[->| ->]]]]].
  - now rewrite callTool_unknown.
  - now apply callTool_automation.
  - now rewrite callTool_record_start.
  - now rewrite callTool_record_stop.
  - now rewrite callTool_generate_test.
  - rewrite callTool_close.
    pose proof (closeBrowser_cases (library R) s) as (_ & Hn & _).
    destruct (closeBrowser (library R) s) as [[[]|message] s']; cbn [fst snd] in *;
      now apply Hn.
Qed.

Lemma recordAction_wellRecorded (now : Z) (input : ActionInput) (s : Session) :
  recordable input ->
  wellRecorded (recordedActions s) ->
  wellRecorded (recordedActions (recordAction now input s)).
Proof.
  intros Hinput Hlog. unfold recordAction.
  destruct (isRecording s); [|exact Hlog]. cbn.
  apply Forall_app. split; [exact Hlog|].
  apply Forall_singleton. now exists input, now.
Qed.

Lemma callTool_wellRecorded (R : Runtime) (now : Z) (name : string) (args : JsonArgs) (s : Server) :
  wellRecorded (logOf s) -> wellRecorded (logOf (callTool R now name args s).2).
Proof.
  unfold logOf. intros Hlog.
  destruct (callTool_world R now name args s)
    as [Hw|[(_ & input & Hinput & Hw)|[(_ & started & Hw)|[(_ & Hw)|[(_ & Hw)|(_ & Hw)]]]]];
    rewrite Hw; try assumption; cbn [session recordedActions];
    try apply Forall_nil_2.
  now apply recordAction_wellRecorded.
Qed.

Lemma holdsInput_withTimestamp (input : ActionInput) (now : Z) :
  holdsInput (withTimestamp input now) input now.
Proof. repeat split. Qed.

(** What one call does to the log: nothing, or it empties the log, or it
    appends the action its tool builds from the call's arguments, stamped
    with the call's clock reading. *)
Lemma callTool_log (R : Runtime) (now : Z) (name : string) (args : JsonArgs) (s : Server) :
  logOf (callTool R now name args s).2 = logOf s \/
  logOf (callTool R now name args s).2 = [] \/
  exists input,
    recordedInput name args = Some input /\
    logOf (callTool R now name args s).2 = logOf s ++ [withTimestamp input now].
Proof.
  unfold logOf.
  destruct (name_cases name) as [Hname|[Hname|[->|[->|[->| ->]]]]].
  - left. now rewrite callTool_unknown.
  - destruct (callTool_automation R now name args s Hname) as [_ Hworld].
    destruct (replyIsError (callTool R now name args s).1);
      [left; now rewrite Hworld|].
    destruct Hworld as [Hworld _]. rewrite Hworld.
    destruct (recordedInput name args) as [input|] eqn:Hinput; [|now left].
    cbn [afterRecording onSession session]. unfold recordAction.
    destruct (isRecording (session (world s))); [|now left].
    right. right. exists input. split; reflexivity.
  - rewrite callTool_record_start. cbn [snd world].
    pose proof (recordStart_cases (env R) (toArgValue <$> args) (world s)) as Hstart.
    destruct (stringField (toArgValue <$> args) "name") as [started|];
      rewrite Hstart; [right|]; now left.
  - now left.
  - left. rewrite callTool_generate_test. cbn [snd world].
    now rewrite generateTest_session.
  - rewrite callTool_close.
    pose proof (closeBrowser_cases (library R) s) as (Hw & _).
    destruct (closeBrowser (library R) s) as [[[]|message] s'];
      cbn [fst snd world] in *; [|left; now rewrite Hw].
    right. left. reflexivity.
Qed.

Lemma callTool_recordedInOrder (done : list (Runtime * Z * string * JsonArgs)) (R : Runtime) (now : Z) (name : string) (args : JsonArgs) (s : Server) :
  recordedInOrder (logOf s) done ->
  recordedInOrder (logOf (callTool R now name args s).2) (done ++ [(R, now, name, args)]).
Proof.
  intros (recorded & Hsub & Hall).
  destruct (callTool_log R now name args s) as [->|[->|(input & Hinput & ->)]].
  - exists recorded. split; [now apply sublist_inserts_r | assumption].
  - exists []. split; [apply sublist_nil_l | constructor].
  - exists (recorded ++ [(R, now, name, args)]).
    split; [now apply sublist_app|].
    apply Forall2_app; [assumption|].
    constructor; [|constructor].
    exists input. split; [assumption | apply holdsInput_withTimestamp].
Qed.

Lemma runCalls_recordedInOrder (calls done : list (Runtime * Z * string * JsonArgs)) (s : Server) :
  recordedInOrder (logOf s) done ->
  recordedInOrder (logOf (runCalls calls s)) (done ++ calls).
Proof.
  revert done s.
  induction calls as [|[[[R now] name] args] calls IH]; intros done s Hs.
  - now rewrite app_nil_r.
  - rewrite cons_middle, app_assoc. cbn [runCalls fold_left].
    apply (IH (done ++ [(R, now, name, args)])).
    now apply callTool_recordedInOrder.
Qed.

Lemma runCalls_nested (calls : list (Runtime * Z * string * JsonArgs)) (s : Server) :
  nested (manager s) -> nested (manager (runCalls calls s)).
Proof.
  unfold runCalls. revert s.
  induction calls as [|[[[R now] name] args] calls IH]; intros s Hs;
    cbn [fold_left]; [assumption|].
  apply IH. now apply callTool_nested.
Qed.

Lemma runCalls_wellRecorded (calls : list (Runtime * Z * string * JsonArgs)) (s : Server) :
  wellRecorded (logOf s) -> wellRecorded (logOf (runCalls calls s)).
Proof.
  unfold runCalls. revert s.
  induction calls as [|[[[R now] name] args] calls IH]; intros s Hs;
    cbn [fold_left]; [assumption|].
  apply IH. now apply callTool_wellRecorded.
Qed.

(** X10. In every state the server reaches from its start by calls handled
    one after another, whatever tools are called with whatever arguments
    and whatever the browser, the clock and the disk answer: the manager
    holds no page without its context and no context without its browser;
    and the log holds, in call order, one entry for some of the calls made,
    each entry holding field by field the action that the called tool
    builds from the arguments of that call, and as its timestamp the clock
    reading of that call. *)
Theorem reachable_states_are_sound (calls : list (Runtime * Z * string * JsonArgs)) :
  nested (manager (runCalls calls initialServer)) /\
  recordedInOrder (logOf (runCalls calls initialServer)) calls.
Proof.
  split.
  - apply runCalls_nested. split; intros [? H]; discriminate H.
  - apply (runCalls_recordedInOrder calls [] initialServer).
    exists []. split; [reflexivity | constructor].
Qed.

Lemma hasMapping_playwright_of_recordable (input : ActionInput) (now : Z) (language : Language) :
  recordable input -> language <> python ->
  hasMapping (casesFor playwright language) (withTimestamp input now).
Proof.
  intros Hinput Hlang.
  destruct language; [| |contradiction];
    destruct Hinput; apply (bool_decide_unpack _); vm_compute; exact I.
Qed.

Lemma iff_by_bool_decide (P Q : Prop) `{!Decision P} `{!Decision Q} :
  bool_decide P = bool_decide Q -> P <-> Q.
Proof.
  intros Heq. rewrite <- (bool_decide_spec P), <- (bool_decide_spec Q).
  now rewrite Heq.
Qed.

(** The kinds that each [switch] has a case for, among those the handlers
    record. *)
Lemma recorded_kinds_with_a_case (input : ActionInput) (now : Z) :
  recordable input ->
  (forall language, language <> python ->
     (hasMapping (casesFor puppeteer language) (withTimestamp input now) <->
      in_type input ∉ ["check"; "uncheck"])) /\
  (hasMapping (casesFor playwright python) (withTimestamp input now) <->
   in_type input ∉ ["check"; "uncheck"]) /\
  (forall framework, framework <> playwright ->
     (hasMapping (casesFor framework python) (withTimestamp input now) <->
      in_type input ∉ ["press"; "select"; "hover"; "check"; "uncheck"])).
Proof.
  intros Hinput. split; [|split].
  - intros language Hlang. destruct language; [| |contradiction];
      destruct Hinput; apply (iff_by_bool_decide _ _); vm_compute; reflexivity.
  - destruct Hinput; apply (iff_by_bool_decide _ _); vm_compute; reflexivity.
  - intros framework Hfw. destruct framework; [contradiction| |];
      destruct Hinput; apply (iff_by_bool_decide _ _); vm_compute; reflexivity.
Qed.

Lemma statements_cons (cases : Cases) (action : RecordedAction) (rest : list RecordedAction) :
  statements cases (action :: rest) =
  match statementOf cases action with
  | Some stmt => stmt :: statements cases rest
  | None => statements cases rest
  end.
Proof. reflexivity. Qed.

Lemma mapped_rendersAction (framework : Framework) (language : Language) (action : RecordedAction) :
  hasMapping (casesFor framework language) action ->
  rendersAction framework language action.
Proof.
  intros [stmt Hstmt]%statementOf_is_Some. exists stmt.
  split; [assumption|].
  split; [now apply statementOf_lineBreaks in Hstmt|].
  intros name before after.
  rewrite testCodeFor_shape, statements_app, joinAll_app, statements_cons, Hstmt.
  now rewrite joinAll_cons, !append_assoc.
Qed.

Lemma unmapped_skipsAction (framework : Framework) (language : Language) (action : RecordedAction) :
  ~ hasMapping (casesFor framework language) action ->
  skipsAction framework language action.
Proof.
  intros Hnone%statementOf_None name before after.
  now rewrite !testCodeFor_shape, !statements_app, statements_cons, Hnone.
Qed.

(** X11. Which recorded kinds each generator renders.  For an action built
    by a handler, wherever it stands in a log: the Playwright generator for
    TypeScript and JavaScript writes a statement for it, of whatever kind;
    the Puppeteer generator and the Playwright branch of the Python
    generator write one for every kind but [check] and [uncheck]; the
    Selenium branch of the Python generator, which every other framework
    takes, writes one for every kind but [press], [select], [hover],
    [check] and [uncheck].  A statement written is the body of the case for
    the kind and ends with a line break; for a kind not rendered the text
    is that of the log without the action. *)
Theorem kinds_each_generator_renders (input : ActionInput) (now : Z) :
  recordable input ->
  (forall language, language <> python ->
     rendersAction playwright language (withTimestamp input now)) /\
  (forall language, language <> python ->
     (in_type input ∉ ["check"; "uncheck"] ->
      rendersAction puppeteer language (withTimestamp input now)) /\
     (in_type input ∈ ["check"; "uncheck"] ->
      skipsAction puppeteer language (withTimestamp input now))) /\
  ((in_type input ∉ ["check"; "uncheck"] ->
    rendersAction playwright python (withTimestamp input now)) /\
   (in_type input ∈ ["check"; "uncheck"] ->
    skipsAction playwright python (withTimestamp input now))) /\
  (forall framework, framework <> playwright ->
     (in_type input ∉ ["press"; "select"; "hover"; "check"; "uncheck"] ->
      rendersAction framework python (withTimestamp input now)) /\
     (in_type input ∈ ["press"; "select"; "hover"; "check"; "uncheck"] ->
      skipsAction framework python (withTimestamp input now))).
Proof.
  intros Hinput.
  destruct (recorded_kinds_with_a_case input now Hinput) as (Hpuppeteer & Hpython & Hselenium).
  split.
  { intros language Hlang. apply mapped_rendersAction.
    now apply hasMapping_playwright_of_recordable. }
  split; [|split].
  - intros language Hlang. split; intros Hkind.
    + apply mapped_rendersAction. now apply Hpuppeteer.
    + apply unmapped_skipsAction. rewrite (Hpuppeteer language Hlang). tauto.
  - split; intros Hkind.
    + apply mapped_rendersAction. now apply Hpython.
    + apply unmapped_skipsAction. rewrite Hpython. tauto.
  - intros framework Hfw. split; intros Hkind.
    + apply mapped_rendersAction. now apply Hselenium.
    + apply unmapped_skipsAction. rewrite (Hselenium framework Hfw). tauto.
Qed.

Lemma kinds_each_generator_renders_witness :
  rendersAction playwright typescript (withTimestamp (Recorded.check "#c") 1) /\
  skipsAction puppeteer typescript (withTimestamp (Recorded.check "#c") 1).
Proof.
  destruct (kinds_each_generator_renders (Recorded.check "#c") 1)
    as (Hplaywright & Hpuppeteer & _); [apply rec_check|].
  split; [apply Hplaywright; discriminate|].
  apply (Hpuppeteer typescript); [discriminate|].
  apply (bool_decide_unpack _). vm_compute. exact I.
Defined.

Lemma statements_of_mapped_log (framework : Framework) (language : Language) (log : list RecordedAction) :
  Forall (hasMapping (casesFor framework language)) log ->
  Forall2 (fun entry stmt =>
             statementOf (casesFor framework language) entry = Some stmt /\
             endsLine stmt)
    log (statements (casesFor framework language) log).
Proof.
  induction 1 as [|a l Ha _ IH]; [constructor|].
  apply statementOf_is_Some in Ha as [stmt Hstmt].
  rewrite statements_cons, Hstmt. constructor; [|exact IH].
  split; [assumption|]. now apply statementOf_lineBreaks in Hstmt.
Qed.

(** X12. Whatever calls were made, one after another, a Playwright script
    in TypeScript or JavaScript generated from the log the server then
    holds skips nothing: the text is the prologue, one statement for each
    entry of the log, in log order, and the closing lines, and each of
    these statements is the body of the case for its entry's kind and ends
    with a line break. *)
Theorem playwright_script_renders_every_recorded_action (calls : list (Runtime * Z * string * JsonArgs)) (language : Language) (name : string) :
  language <> python ->
  exists stmts,
    testCodeFor name (logOf (runCalls calls initialServer)) playwright language =
      prologue name playwright language +:+ joinAll stmts +:+
      teardownLines playwright language /\
    Forall2 (fun entry stmt =>
               statementOf playwrightCases entry = Some stmt /\
               endsLine stmt)
      (logOf (runCalls calls initialServer)) stmts.
Proof.
  intros Hlang.
  exists (statements (casesFor playwright language) (logOf (runCalls calls initialServer))).
  split; [apply testCodeFor_shape|].
  assert (casesFor playwright language = playwrightCases) as Hcases
    by (destruct language; [reflexivity..|contradiction]).
  rewrite <- Hcases. apply statements_of_mapped_log.
  assert (wellRecorded (logOf (runCalls calls initialServer))) as Hlog
    by (apply runCalls_wellRecorded, Forall_nil_2).
  eapply Forall_impl; [exact Hlog|].
  intros a (input & t & Hinput & ->).
  now apply hasMapping_playwright_of_recordable.
Qed.

Lemma playwright_script_renders_every_recorded_action_witness :
  exists stmts,
    testCodeFor "s1"
      (logOf (runCalls
         [ (sampleRuntime, 1%Z, "playwright_record_start", sampleArgs);
           (sampleRuntime, 2%Z, "playwright_checkbox", sampleArgs);
           (sampleRuntime, 3%Z, "playwright_press_key", sampleArgs) ]
         initialServer)) playwright javascript =
      prologue "s1" playwright javascript +:+ joinAll stmts +:+
      teardownLines playwright javascript /\
    length stmts = 2.
Proof.
  destruct (playwright_script_renders_every_recorded_action
              [ (sampleRuntime, 1%Z, "playwright_record_start", sampleArgs);
                (sampleRuntime, 2%Z, "playwright_checkbox", sampleArgs);
                (sampleRuntime, 3%Z, "playwright_press_key", sampleArgs) ]
              javascript "s1") as (stmts & Htext & Hall); [discriminate|].
  exists stmts. split; [exact Htext|].
  apply Forall2_length in Hall. rewrite <- Hall. reflexivity.
Defined.

(** ** More on the generators *)

Lemma statementOf_ext (cases : Cases) (a b : RecordedAction) :
  type a = type b ->
  Forall (fun c => c.2 a = c.2 b) cases ->
  statementOf cases a = statementOf cases b.
Proof.
  intros Htype Hbodies. unfold statementOf. rewrite Htype.
  destruct (selectCase cases (type b)) as [body|] eqn:Hsel; [|reflexivity].
  cbn. f_equal. apply selectCase_In in Hsel.
  rewrite Forall_forall in Hbodies. exact (Hbodies _ Hsel).
Qed.

Lemma statements_ext (cases : Cases) (f : RecordedAction -> RecordedAction) (log : list RecordedAction) :
  (forall a, statementOf cases (f a) = statementOf cases a) ->
  statements cases (f <$> log) = statements cases log.
Proof.
  intros Hf. unfold statements.
  induction log as [|a log IH]; [reflexivity|].
  cbn. now rewrite Hf, IH.
Qed.

Lemma bodies_read_the_payload (framework : Framework) (language : Language) (a b : RecordedAction) :
  payload a = payload b ->
  Forall (fun c => c.2 a = c.2 b) (casesFor framework language).
Proof.
  destruct a, b. unfold payload. cbn. intros [= -> -> -> -> ->].
  destruct framework, language; cbn; repeat (constructor; [reflexivity|]);
    constructor.
Qed.

(** X13. The generated text depends on a log only through the kind,
    selector, value, URL and key of its actions: two logs that agree on
    those give the same text for every session name, framework and
    language, whatever their timestamps, descriptions, scripts and
    attributes. *)
Theorem text_depends_on_the_payload_only (name : string) (framework : Framework) (language : Language) (log log' : list RecordedAction) :
  payload <$> log = payload <$> log' ->
  testCodeFor name log framework language =
  testCodeFor name log' framework language.
Proof.
  intros Hpayload. rewrite !testCodeFor_shape.
  assert (statements (casesFor framework language) log =
          statements (casesFor framework language) log') as ->; [|reflexivity].
  unfold statements. revert log' Hpayload.
  induction log as [|a log IH]; intros [|b log'] Hpayload; try discriminate;
    [reflexivity|].
  rewrite !fmap_cons in Hpayload.
  assert (payload a = payload b /\ payload <$> log = payload <$> log')
    as [Hab Hrest] by (split; congruence).
  cbn. rewrite (IH log' Hrest).
  rewrite (statementOf_ext _ a b); [reflexivity | | ].
  - unfold payload in Hab. congruence.
  - now apply bodies_read_the_payload.
Qed.

Lemma text_depends_on_the_payload_only_witness :
  testCodeFor "s1" [withTimestamp (Recorded.click "#go") 1] puppeteer javascript =
  testCodeFor "s1"
    [ {| type := "click"; selector := Some "#go"; value := None; url := None;
         script := Some "x"; key := None; attribute := Some "y";
         timestamp := 99; description := None |} ] puppeteer javascript.
Proof.
  apply text_depends_on_the_payload_only. reflexivity.
Defined.

(** X14. A payload field that is absent from an action is rendered as the
    word [undefined]: the text for a log is the text for the same log with
    each absent selector, value, URL and key replaced by the string
    [undefined], for every framework and language. *)
Theorem absent_fields_print_undefined (name : string) (framework : Framework) (language : Language) (log : list RecordedAction) :
  testCodeFor name (spelledOut <$> log) framework language =
  testCodeFor name log framework language /\
  statementOf (casesFor playwright typescript)
    {| type := "click"; selector := None; value := None; url := None;
       script := None; key := None; attribute := None; timestamp := 0;
       description := None |} =
  Some ("  await page.click('undefined');" +:+ nl).
Proof.
  split; [|reflexivity].
  rewrite !testCodeFor_shape.
  assert (statements (casesFor framework language) (spelledOut <$> log) =
          statements (casesFor framework language) log) as ->; [|reflexivity].
  apply statements_ext. intros a. apply statementOf_ext; [reflexivity|].
  destruct a as [ty sel v u sc k at_ ts d].
  destruct framework, language; cbn; repeat (constructor; [reflexivity|]);
    constructor.
Qed.

Lemma replaceNonAlnum_fixed_iff (s : string) :
  replaceNonAlnum s = s <-> everyChar identifierChar s = true.
Proof.
  induction s as [|c s IH]; [easy|].
  cbn [replaceNonAlnum everyChar]. unfold identifierChar at 1.
  rewrite andb_true_iff, <- IH. split.
  - intros [= Hc Hs]. split; [|assumption].
    destruct (isAlnum c); [reflexivity|]. cbn. rewrite <- Hc. reflexivity.
  - intros [Hc ->]. f_equal. destruct (isAlnum c); [reflexivity|].
    cbn in Hc. now apply Ascii.eqb_eq in Hc.
Qed.

(** X15. Sanitising a session name for Python keeps its length,
    yields only letters, digits and underscores, is idempotent, and leaves
    a name unchanged exactly when the name already consists of letters,
    digits and underscores. *)
Theorem sanitising_a_name (s : string) :
  String.length (replaceNonAlnum s) = String.length s /\
  everyChar identifierChar (replaceNonAlnum s) = true /\
  replaceNonAlnum (replaceNonAlnum s) = replaceNonAlnum s /\
  (replaceNonAlnum s = s <-> everyChar identifierChar s = true).
Proof.
  split.
  { induction s as [|c s IH]; [reflexivity|]. cbn. now rewrite IH. }
  split; [apply replaceNonAlnum_identifier|].
  split; [|apply replaceNonAlnum_fixed_iff].
  apply replaceNonAlnum_fixed_iff, replaceNonAlnum_identifier.
Qed.

(** ** More on the recording tools *)

Ltac run_generate :=
  unfold generateTest, tryCatch, playwright_generate_test,
    GenerateTestSchema_parse;
  unfold mbind, mret, Handler_bind, Handler_ret, reply, skip, getSession,
    setSession, throw, existsSync, mkdirSync, writeFileSync.

(** X16. [playwright_generate_test] never changes the recording state, and
    the only file it can change is the one it was asked for: if a path
    holds something else after the call than before, the arguments were
    valid, the log was not empty, the path is the requested file under the
    output directory, its content is now the generated text and the
    response is not an error. *)
Theorem generate_writes_one_file (E : Env) (args : Args) (w : World) :
  session (generateTest E args w).2 = session w /\
  forall p,
    files (disk (generateTest E args w).2) !! p <> files (disk w) !! p ->
    exists framework language fileName,
      checkGenerateArgs args = inl (framework, language, fileName) /\
      recordedActions (session w) <> [] /\
      p = filePathOf E fileName /\
      files (disk (generateTest E args w).2) !! p =
        Some (testCodeFor (recordingName (session w)) (recordedActions (session w))
                framework language) /\
      isError (generateTest E args w).1 = false.
Proof.
  split; [apply generateTest_session|].
  intros p. run_generate.
  destruct (checkGenerateArgs args) as [[[f l] n]|issues]; cbn;
    [|intros H; now contradiction H].
  case_decide as Hlen; cbn; [intros H; now contradiction H|].
  fold (testsDirOf E). fold (filePathOf E n).
  destruct (bool_decide _ || bool_decide _); cbn;
    repeat match goal with
           | |- context [refuses E ?x] => destruct (refuses E x); cbn
           end;
    try (intros H; now contradiction H);
    (destruct (decide (p = filePathOf E n)) as [->|Hp];
     [ intros _; exists f, l, n; rewrite lookup_insert_eq;
       repeat split; try reflexivity;
       intros Hnil; apply Hlen; now rewrite Hnil
     | rewrite lookup_insert_ne by congruence; intros H; now contradiction H ]).
Qed.

Lemma generate_writes_one_file_witness :
  exists framework language fileName,
    checkGenerateArgs (generateArgs selenium python "t.py") =
      inl (framework, language, fileName) /\
    filePathOf sampleEnv "t.py" = filePathOf sampleEnv fileName.
Proof.
  destruct (generate_writes_one_file sampleEnv (generateArgs selenium python "t.py")
              (world recordingServer)) as [_ Hfile].
  destruct (Hfile (filePathOf sampleEnv "t.py")) as (f & l & n & Hargs & _ & Hp & _).
  - vm_compute. discriminate.
  - exists f, l, n. split; assumption.
Defined.





Lemma present_true (E : Env) (d : FileSystem) :
  outputDirPresent E d ->
  bool_decide (testsDirOf E ∈ directories d) ||
  bool_decide (is_Some (files d !! testsDirOf E)) = true.
Proof.
  intros [H|H]; apply orb_true_iff; [left|right]; now apply bool_decide_eq_true.
Qed.

Lemma present_false (E : Env) (d : FileSystem) :
  ~ outputDirPresent E d ->
  bool_decide (testsDirOf E ∈ directories d) ||
  bool_decide (is_Some (files d !! testsDirOf E)) = false.
Proof.
  intros H. apply orb_false_iff.
  split; apply bool_decide_eq_false; intros ?; apply H; [now left | now right].
Qed.

(** X18. Storage failures are reported with the operating system's own
    message and never leave a file behind.  For a request whose file is not
    the output directory itself: if the output directory is missing and
    cannot be created, the response is [Error: <message>] and the world is
    unchanged; if the directory is there or can be created and the file
    cannot be written, the response is [Error: <message>], no file is
    changed and the recording state is kept, but an output directory that
    had to be created stays. *)
Theorem storage_refusal_is_reported (E : Env) (args : Args) (w : World) (framework : Framework) (language : Language) (fileName message : string) :
  checkGenerateArgs args = inl (framework, language, fileName) ->
  recordedActions (session w) <> [] ->
  filePathOf E fileName <> testsDirOf E ->
  (~ outputDirPresent E (disk w) ->
   refuses E (testsDirOf E) = Some message ->
   generateTest E args w =
   ({| text := "Error: " +:+ message; isError := true |}, w)) /\
  (outputDirPresent E (disk w) \/ refuses E (testsDirOf E) = None ->
   refuses E (filePathOf E fileName) = Some message ->
   generateTest E args w =
   ({| text := "Error: " +:+ message; isError := true |},
    {| session := session w;
       disk := {| directories := directories (diskAfterWrite E (disk w) fileName "");
                  files := files (disk w) |} |})).
Proof.
  intros Hargs Hlog _. split.
  - intros Habsent Hdir. run_generate. rewrite Hargs. cbn.
    case_decide as Hlen; [now apply length_zero_iff_nil in Hlen|]. cbn.
    fold (testsDirOf E). rewrite (present_false E (disk w) Habsent). cbn.
    rewrite Hdir. cbn. now destruct w.
  - intros Hdir Hfile. run_generate. rewrite Hargs. cbn.
    case_decide as Hlen; [now apply length_zero_iff_nil in Hlen|]. cbn.
    fold (testsDirOf E). fold (filePathOf E fileName).
    unfold diskAfterWrite. cbn [directories].
    destruct (bool_decide _ || bool_decide _) eqn:Hpresent; cbn.
    + rewrite Hfile. cbn. now destruct w as [? []].
    + destruct Hdir as [Hdir|Hdir].
      * rewrite (present_true E (disk w) Hdir) in Hpresent. discriminate.
      * rewrite Hdir. cbn. rewrite Hfile. reflexivity.
Qed.

Lemma storage_refusal_is_reported_witness :
  generateTest refusingEnv (generateArgs playwright python "t.py")
    (world recordingServer) =
  ({| text := "Error: EACCES: permission denied"; isError := true |},
   {| session := session (world recordingServer);
      disk := {| directories := {[ "/srv/generated-tests" ]} ∪ ∅; files := ∅ |} |}).
Proof.
  destruct (storage_refusal_is_reported refusingEnv
              (generateArgs playwright python "t.py") (world recordingServer)
              playwright python "t.py" "EACCES: permission denied")
    as [_ Hfile].
  - apply checkGenerateArgs_generateArgs.
  - discriminate.
  - vm_compute. discriminate.
  - rewrite Hfile; [reflexivity | right; reflexivity | reflexivity].
Defined.

Lemma generateTest_cases (E : Env) (args : Args) (w : World) :
  match checkGenerateArgs args with
  | inr issues =>
      generateTest E args w =
      ({| text := "Error: " +:+ zodMessage E issues; isError := true |}, w)
  | inl (f, l, n) =>
      let code :=
        testCodeFor (recordingName (session w)) (recordedActions (session w)) f l in
      let done :=
        {| text := generatedMessage (filePathOf E n) f l
                     (length (recordedActions (session w))) code;
           isError := false |} in
      if decide (recordedActions (session w) = []) then
        generateTest E args w =
        ({| text := noActionsMessage; isError := false |}, w)
      else if bool_decide (testsDirOf E ∈ directories (disk w)) ||
              bool_decide (is_Some (files (disk w) !! testsDirOf E)) then
        match refuses E (filePathOf E n) with
        | Some message =>
            generateTest E args w =
            ({| text := "Error: " +:+ message; isError := true |}, w)
        | None =>
            generateTest E args w =
            (done, {| session := session w;
                      disk := {| directories := directories (disk w);
                                 files := <[filePathOf E n := code]> (files (disk w)) |} |})
        end
      else
        match refuses E (testsDirOf E), refuses E (filePathOf E n) with
        | Some message, _ =>
            generateTest E args w =
            ({| text := "Error: " +:+ message; isError := true |}, w)
        | None, Some message =>
            generateTest E args w =
            ({| text := "Error: " +:+ message; isError := true |},
             {| session := session w;
                disk := {| directories := {[testsDirOf E]} ∪ directories (disk w);
                           files := files (disk w) |} |})
        | None, None =>
            generateTest E args w =
            (done, {| session := session w;
                      disk := {| directories := {[testsDirOf E]} ∪ directories (disk w);
                                 files := <[filePathOf E n := code]> (files (disk w)) |} |})
        end
  end.
Proof.
  run_generate.
  destruct (checkGenerateArgs args) as [[[f l] n]|issues]; cbn; [|reflexivity].
  fold (testsDirOf E). fold (filePathOf E n).
  destruct (decide (recordedActions (session w) = [])) as [Hnil|Hlog].
  { rewrite Hnil. reflexivity. }
  rewrite decide_False by (now rewrite length_zero_iff_nil). cbn.
  destruct (bool_decide _ || bool_decide _); cbn.
  - destruct (refuses E (filePathOf E n)); cbn; [now destruct w as [? []]|reflexivity].
  - destruct (refuses E (testsDirOf E)); cbn; [now destruct w as [? []]|].
    destruct (refuses E (filePathOf E n)); reflexivity.
Qed.

(** X19. Repeating a generate request right away changes nothing more and
    gets the same answer, whether the first attempt succeeded or failed:
    the file is overwritten with the same text and the directory is not
    created twice. *)
Theorem generate_twice_is_generate_once (E : Env) (args : Args) (w : World) :
  generateTest E args (generateTest E args w).2 = generateTest E args w.
Proof.
  pose proof (generateTest_cases E args w) as Hfirst.
  pose proof (generateTest_cases E args (generateTest E args w).2) as Hsecond.
  destruct (checkGenerateArgs args) as [[[f l] n]|issues];
    [|now rewrite Hfirst in *].
  cbn zeta in *.
  destruct (decide (recordedActions (session w) = [])) as [Hnil|Hlog];
    [now rewrite Hfirst in *; rewrite decide_True in Hsecond by assumption|].
  destruct (bool_decide (testsDirOf E ∈ directories (disk w)) ||
            bool_decide (is_Some (files (disk w) !! testsDirOf E))) eqn:Hpresent.
  - destruct (refuses E (filePathOf E n)) eqn:Hfile; rewrite Hfirst in *;
      cbn [snd session disk directories files] in *;
      rewrite decide_False in Hsecond by assumption.
    + now rewrite Hpresent in Hsecond.
    + assert (bool_decide (testsDirOf E ∈ directories (disk w)) ||
              bool_decide (is_Some (<[filePathOf E n :=
                 testCodeFor (recordingName (session w)) (recordedActions (session w)) f l]>
                 (files (disk w)) !! testsDirOf E)) = true) as Hstill.
      { apply orb_true_iff in Hpresent as [H|H]; apply orb_true_iff; [now left|right].
        apply bool_decide_eq_true in H. apply bool_decide_eq_true.
        destruct (decide (filePathOf E n = testsDirOf E)) as [->|Hne];
          [rewrite lookup_insert_eq; eauto | now rewrite lookup_insert_ne]. }
      rewrite Hstill in Hsecond. rewrite Hsecond. now rewrite insert_insert_eq.
  - assert (forall fs : gmap string string,
              bool_decide (testsDirOf E ∈ {[testsDirOf E]} ∪ directories (disk w)) ||
                       bool_decide (is_Some (fs !! testsDirOf E)) = true) as Hnow.
    { intros fs. apply orb_true_iff. left. apply bool_decide_eq_true. set_solver. }
    destruct (refuses E (testsDirOf E)) eqn:Hdir;
      [|destruct (refuses E (filePathOf E n)) eqn:Hfile]; rewrite Hfirst in *;
      cbn [snd session disk directories files] in *;
      rewrite decide_False in Hsecond by assumption.
    + now rewrite Hpresent in Hsecond.
    + now rewrite Hnow in Hsecond.
    + rewrite Hnow in Hsecond. rewrite Hsecond. now rewrite insert_insert_eq.
Qed.

(** X20. [playwright_record_start] looks at nothing but the [name]
    argument.  If it is a string, any string, the empty one included, a
    recording starts under it; if it is missing or not a string, the
    response is the validation error and nothing changes: no recording is
    started and an earlier log is kept. *)
Theorem record_start_reads_only_the_name (E : Env) (args : Args) (w : World) :
  (forall name,
     args !! "name" = Some (JString name) ->
     recordStart E args w = recordStart E (startArgs name) w /\
     session (recordStart E args w).2 =
       {| recordedActions := []; isRecording := true; recordingName := name |}) /\
  ((forall name, args !! "name" <> Some (JString name)) ->
   recordStart E args w =
   ({| text := "Error: " +:+ zodMessage E ["name"]; isError := true |}, w)).
Proof.
  pose proof (recordStart_cases E args w) as Hcases.
  unfold stringField in Hcases. split.
  - intros name Hname. rewrite Hname in Hcases.
    rewrite Hcases, recordStart_spec. now split.
  - intros Hname. destruct (args !! "name") as [[name|]|]; try assumption.
    now contradiction (Hname name).
Qed.

Lemma record_start_reads_only_the_name_witness :
  session (recordStart sampleEnv
             (<[ "name" := JString "" ]> (generateArgs playwright python "t.py"))
             (world recordingServer)).2 =
    {| recordedActions := []; isRecording := true; recordingName := "" |} /\
  recordStart sampleEnv (generateArgs playwright python "t.py") (world recordingServer) =
    ({| text := "Error: invalid: name"; isError := true |}, world recordingServer).
Proof.
  split.
  - apply (record_start_reads_only_the_name sampleEnv _ (world recordingServer)).
    apply lookup_insert_eq.
  - apply (record_start_reads_only_the_name sampleEnv _ (world recordingServer)).
    intros name. vm_compute. discriminate.
Defined.

Lemma recordAll_inactive (calls : list (Z * ActionInput)) (s : Session) :
  isRecording s = false -> recordAll calls s = s.
Proof.
  intros Hoff. unfold recordAll.
  induction calls as [|[now action] calls IH]; [reflexivity|].
  cbn [fold_left fst snd]. unfold recordAction at 2. now rewrite Hoff.
Qed.

(** X21. One recording from start to stop.  After a start, any run of
    [recordAction] calls and a stop, the log holds exactly one entry per
    call, in call order; each entry holds every field of its call's action
    as given and, as its timestamp, the clock reading of its call; the stop
    message reports the number of calls; and whatever is reported to
    [recordAction] afterwards is not recorded. *)
Theorem recording_from_start_to_stop (E : Env) (w : World) (name : string) (calls later : list (Z * ActionInput)) :
  let started := (recordStart E (startArgs name) w).2 in
  let stopped := recordStop (onSession (recordAll calls) started) in
  Forall2 (fun entry call => holdsInput entry call.2 call.1)
    (recordedActions (session stopped.2)) calls /\
  text stopped.1 =
    "Recording stopped. " +:+ showNat (length calls) +:+
    " actions recorded. Use playwright_generate_test to create a test script." /\
  recordAll later (session stopped.2) = session stopped.2.
Proof.
  intros started stopped. subst started stopped.
  rewrite recordStart_spec, recordStop_spec.
  cbn [fst snd session onSession disk text].
  rewrite recordAll_active by reflexivity.
  cbn [recordedActions recordingName app].
  split.
  { induction calls as [|[now action] calls IH]; [constructor|].
    cbn [map]. constructor; [apply holdsInput_withTimestamp | exact IH]. }
  split; [now rewrite length_map|].
  now apply recordAll_inactive.
Qed.

(** X22. Between TypeScript and JavaScript only the import line differs:
    for every framework, session name and log the two texts are the two
    import lines followed by one and the same remainder, and the import
    lines themselves are different for Playwright and for Puppeteer. *)
Theorem typescript_and_javascript_differ_in_imports (name : string) (log : list RecordedAction) (framework : Framework) :
  (exists rest,
     testCodeFor name log framework typescript =
       importLines framework typescript +:+ rest /\
     testCodeFor name log framework javascript =
       importLines framework javascript +:+ rest) /\
  importLines playwright typescript <> importLines playwright javascript /\
  importLines puppeteer typescript <> importLines puppeteer javascript.
Proof.
  split; [|split; discriminate].
  exists (entryPoint name framework typescript +:+
          setupLines framework typescript +:+
          joinAll (statements (casesFor framework typescript) log) +:+
          teardownLines framework typescript).
  rewrite !testCodeFor_shape. unfold prologue. rewrite !append_assoc.
  split; [reflexivity|]. now destruct framework.
Qed.

Lemma toArgValue_generateJson (framework : Framework) (language : Language) (fileName : string) :
  toArgValue <$> generateJson framework language fileName =
  generateArgs framework language fileName.
Proof.
  unfold generateJson, generateArgs.
  now rewrite !fmap_insert, map_fmap_singleton.
Qed.

Lemma roundTripServer_world (R : Runtime) (s : Server) (name u sel : string) (t1 t2 : Z) :
  let started := (callTool R 0 "playwright_record_start" {[ "name" := JsString name ]} s).2 in
  let navigated := callTool R t1 "playwright_navigate" {[ "url" := JsString u ]} started in
  let clicked := callTool R t2 "playwright_click" {[ "selector" := JsString sel ]} navigated.2 in
  replyIsError navigated.1 = false ->
  replyIsError clicked.1 = false ->
  world (roundTripServer R s name u sel t1 t2) =
  roundTripWorld (env R) (world s) name u sel t1 t2.
Proof.
  intros started navigated clicked Hnav Hclick.
  unfold roundTripServer. fold started. fold navigated. fold clicked.
  rewrite callTool_record_stop. cbn [snd world].
  assert (world started = (recordStart (env R) (startArgs name) (world s)).2) as Hstarted.
  { subst started. rewrite callTool_record_start. cbn [snd world].
    now rewrite map_fmap_singleton. }
  assert (world navigated.2 =
          onSession (recordAction t1 (Recorded.navigate u)) (world started)) as Hnavigated.
  { destruct (callTool_automation R t1 "playwright_navigate"
                {[ "url" := JsString u ]} started) as [_ Hw].
    - apply (bool_decide_unpack _). vm_compute. exact I.
    - fold navigated in Hw. rewrite Hnav in Hw. destruct Hw as [Hw _].
      rewrite Hw. unfold recordedInput, requiredString. cbn.
      now rewrite lookup_singleton_eq. }
  assert (world clicked.2 =
          onSession (recordAction t2 (Recorded.click sel)) (world navigated.2)) as Hclicked.
  { destruct (callTool_automation R t2 "playwright_click"
                {[ "selector" := JsString sel ]} navigated.2) as [_ Hw].
    - apply (bool_decide_unpack _). vm_compute. exact I.
    - fold clicked in Hw. rewrite Hclick in Hw. destruct Hw as [Hw _].
      rewrite Hw. unfold recordedInput, requiredString. cbn.
      now rewrite lookup_singleton_eq. }
  unfold roundTripWorld. now rewrite Hclicked, Hnavigated, Hstarted.
Qed.

(** X23. The round trip through the request handler itself.  After the
    tool calls start, navigate, click and stop, with the navigation and the
    click answered without error, a generate call for Playwright and
    TypeScript whose write the disk accepts stores under the requested name
    a text with the [goto] of the URL directly before the [click] of the
    selector, and returns it after the success message. *)
Theorem round_trip_through_the_handler (R : Runtime) (s : Server) (name u sel fileName : string) (t1 t2 : Z) :
  let started := (callTool R 0 "playwright_record_start" {[ "name" := JsString name ]} s).2 in
  let navigated := callTool R t1 "playwright_navigate" {[ "url" := JsString u ]} started in
  let clicked := callTool R t2 "playwright_click" {[ "selector" := JsString sel ]} navigated.2 in
  let code :=
    prologue name playwright typescript +:+
    ("  await page.goto('" +:+ u +:+ "');" +:+ nl) +:+
    ("  await page.click('" +:+ sel +:+ "');" +:+ nl) +:+
    teardownLines playwright typescript in
  let generated :=
    callTool R 0 "playwright_generate_test"
      (generateJson playwright typescript fileName)
      (roundTripServer R s name u sel t1 t2) in
  replyIsError navigated.1 = false ->
  replyIsError clicked.1 = false ->
  storageAccepts (env R) (world s) fileName ->
  generated.1 =
    {| content := [TextContent (Some
         (generatedMessage (filePathOf (env R) fileName) playwright typescript 2 code))];
       replyIsError := false |} /\
  files (disk (world generated.2)) !! filePathOf (env R) fileName = Some code.
Proof.
  intros started navigated clicked code generated Hnav Hclick Hstorage.
  subst generated. rewrite callTool_generate_test, toArgValue_generateJson.
  rewrite (roundTripServer_world R s name u sel t1 t2 Hnav Hclick).
  cbn [fst snd world].
  assert (storageAccepts (env R) (roundTripWorld (env R) (world s) name u sel t1 t2)
            fileName) as Hstorage'.
  { now rewrite roundTripWorld_spec. }
  rewrite (generateTest_written (env R) _ _ playwright typescript fileName
             (checkGenerateArgs_generateArgs _ _ _));
    [| rewrite roundTripWorld_spec; discriminate | exact Hstorage'].
  rewrite roundTripWorld_spec.
  cbn [fst snd session disk recordedActions recordingName length files diskAfterWrite].
  assert (testCodeFor name
            [withTimestamp (Recorded.navigate u) t1; withTimestamp (Recorded.click sel) t2]
            playwright typescript = code) as ->.
  { subst code. rewrite testCodeFor_shape. cbn [casesFor].
    change (statements playwrightCases _)
      with [ "  await page.goto('" +:+ u +:+ "');" +:+ nl;
             "  await page.click('" +:+ sel +:+ "');" +:+ nl ].
    unfold joinAll. cbn [foldr]. now rewrite append_nil_r, !append_assoc. }
  split; [reflexivity | apply lookup_insert_eq].
Qed.

Lemma round_trip_through_the_handler_witness :
  files (disk (world
    (callTool sampleRuntime 0 "playwright_generate_test"
       (generateJson playwright typescript "out")
       (roundTripServer sampleRuntime initialServer "s1" "https://a.test" "#go" 1 2)).2))
    !! "/srv/generated-tests/out" =
  Some ("import { test, expect } from '@playwright/test';" +:+ nl +:+ nl +:+
        "test('s1', async ({ page }) => {" +:+ nl +:+
        "  await page.goto('https://a.test');" +:+ nl +:+
        "  await page.click('#go');" +:+ nl +:+
        "});" +:+ nl).
Proof.
  apply (round_trip_through_the_handler sampleRuntime initialServer
           "s1" "https://a.test" "#go" "out" 1 2).
  - reflexivity.
  - reflexivity.
  - split; [right; right; reflexivity | reflexivity].
Defined.

(** ** Validation and responses of the browser-driving tools *)



Lemma obligingLibrary_neverFails : neverFails obligingLibrary.
Proof. constructor; intros; first [exact I | reflexivity]. Qed.







Lemma automation_reply (R : Runtime) (now : Z) (args : JsonArgs) (name : string) (body : Tool Reply) (s : Server) :
  name ∈ automationTools ->
  selectTool (toolCases R now args) name = Some body ->
  match (body s).1 with
  | Throw _ => True
  | Ok r =>
      (exists t, content r = [TextContent (Some t)]) \/
      (name = "playwright_evaluate" /\ content r = [TextContent None]) \/
      (name = "playwright_screenshot" /\
       exists t data, content r = [TextContent (Some t); ImageContent data "image/png"])
  end.
Proof.
  intros Hin Hsel. unfold automationTools in Hin.
  repeat (apply elem_of_cons in Hin as [->|Hin]);
    [..|apply elem_of_nil in Hin; contradiction];
    cbn in Hsel; injection Hsel as <-;
    unfold_tool; repeat step_tool; cbn; try exact I;
    first [ left; eexists; reflexivity
          | right; right; split; [reflexivity|]; do 2 eexists; reflexivity
          | match goal with
            | |- context [TextContent ?o] => destruct o
            end;
            [left; eexists; reflexivity | right; left; split; reflexivity] ].
Qed.

(** X25. The shape of every response.  An error response is flagged and
    carries one text item that starts with [Error: ].  Any other response
    carries exactly one text item, except that a screenshot adds one PNG
    image item after its text, and that the text of an evaluation is
    absent when the script's result has no JSON form. *)
Theorem every_response_has_one_text (R : Runtime) (now : Z) (name : string) (args : JsonArgs) (s : Server) :
  (replyIsError (callTool R now name args s).1 = true ->
   exists message,
     content (callTool R now name args s).1 =
     [TextContent (Some ("Error: " +:+ message))]) /\
  (replyIsError (callTool R now name args s).1 = false ->
   (exists t, content (callTool R now name args s).1 = [TextContent (Some t)]) \/
   (name = "playwright_evaluate" /\
    content (callTool R now name args s).1 = [TextContent None]) \/
   (name = "playwright_screenshot" /\
    exists t data,
      content (callTool R now name args s).1 =
      [TextContent (Some t); ImageContent data "image/png"])).
Proof.
  destruct (name_cases name) as [Hname|[Hname|[->|[->|[->| ->]]]]].
  - rewrite callTool_unknown by assumption. cbn.
    split; [intros _; eexists; reflexivity | discriminate].
  - assert (is_Some (selectTool (toolCases R now args) name)) as [body Hsel].
    { apply selectTool_is_Some. rewrite toolCases_names.
      change toolNames with (automationTools ++
        ["playwright_record_start"; "playwright_record_stop";
         "playwright_generate_test"; "playwright_close"]).
      apply elem_of_app. now left. }
    rewrite (callTool_selected R now name args s body Hsel).
    pose proof (automation_summary R now args name body s Hname Hsel) as [_ Hsum].
    pose proof (automation_reply R now args name body s Hname Hsel) as Hshape.
    destruct (body s) as [[r|message] s']; cbn [fst snd] in *.
    + destruct Hsum as [Hok _]. rewrite Hok. split; [discriminate | now intros _].
    + cbn. split; [intros _; eexists; reflexivity | discriminate].
  - rewrite callTool_record_start. cbn [fst].
    pose proof (recordStart_cases (env R) (toArgValue <$> args) (world s)) as Hstart.
    destruct (stringField (toArgValue <$> args) "name"); rewrite Hstart; cbn;
      (split; [try discriminate; intros _; eexists; reflexivity
              | try discriminate; intros _; left; eexists; reflexivity]).
  - rewrite callTool_record_stop. cbn.
    split; [discriminate | intros _; left; eexists; reflexivity].
  - rewrite callTool_generate_test. cbn [fst].
    split; [|intros _; left; eexists; reflexivity].
    pose proof (generateTest_cases (env R) (toArgValue <$> args) (world s)) as Hgen.
    destruct (checkGenerateArgs (toArgValue <$> args)) as [[[f l] n]|issues];
      cbn zeta in Hgen;
      repeat match type of Hgen with
             | context [match ?x with _ => _ end] => destruct x
             | context [if ?x then _ else _] => destruct x
             end;
      rewrite Hgen; cbn; try discriminate; intros _; eexists; reflexivity.
  - rewrite callTool_close.
    destruct (closeBrowser (library R) s) as [[[]|message] s']; cbn;
      (split; [try discriminate; intros _; eexists; reflexivity
              | try discriminate; intros _; left; eexists; reflexivity]).
Qed.

Lemma every_response_has_one_text_witness :
  exists t data,
    content (callTool sampleRuntime 9 "playwright_screenshot" sampleArgs recordingServer).1 =
    [TextContent (Some t); ImageContent data "image/png"].
Proof.
  destruct (every_response_has_one_text sampleRuntime 9 "playwright_screenshot"
              sampleArgs recordingServer) as [_ Hok].
  destruct Hok as [[t Ht]|[[Hname _]|[_ Himage]]].
  - reflexivity.
  - vm_compute in Ht. discriminate.
  - discriminate.
  - exact Himage.
Defined.

(** ** The advertised schemas *)






